(** * md-webcrawl-mcp: the link-discovery-to-persisted-document pipeline

    A shallow embedding of [server.py] ([get_filepath], [map_links],
    [batch_save]) together with the parts of the Python runtime those
    functions lean on (string methods, [posixpath], [urllib.parse.urlparse],
    the file system), and the properties of the pipeline proved over it.

    Conventions.
    - A Python [str] is a [string]; a character is a code point below 256.
    - [None] is [None]; a Python value that is "a string or [None]" is an
      [option string].
    - The outside world (file system, working directory, environment,
      network, clock) is an explicit [World] value threaded through every
      operation.  An operation that may raise returns an [exn]. *)

From Stdlib Require Import Strings.String Strings.Ascii Numbers.DecimalString
  Numbers.DecimalNat.
From stdpp Require Import base option list gmap strings.

Local Open Scope string_scope.
Local Open Scope list_scope.
Set Warnings "-register-all".
Set Default Proof Using "Type".

(** ** Python string methods *)

Module PyStr.

(** [a + b] *)
Fixpoint app (a b : string) : string :=
  match a with
  | EmptyString => b
  | String c a' => String c (app a' b)
  end.
Infix "+++" := app (right associativity, at level 60).

(** [s.startswith(p)] *)
Fixpoint startswith (p s : string) : bool :=
  match p, s with
  | EmptyString, _ => true
  | String a p', String b s' => Ascii.eqb a b && startswith p' s'
  | String _ _, EmptyString => false
  end.

(** [p in s] *)
Fixpoint contains (p s : string) : bool :=
  match s with
  | EmptyString => startswith p EmptyString
  | String _ s' => startswith p s || contains p s'
  end.

(** [s.endswith(p)] *)
Fixpoint endswith (p s : string) : bool :=
  match s with
  | EmptyString => String.eqb p EmptyString
  | String _ s' => String.eqb p s || endswith p s'
  end.

(** [s.replace(pat, '')] for a non-empty [pat]: the occurrences of [pat]
    are found left to right, without overlap, and dropped.  [skip] counts
    the characters of a found occurrence that are still to be dropped. *)
Fixpoint remove_from (pat : string) (skip : nat) (s : string) : string :=
  match s with
  | EmptyString => EmptyString
  | String c s' =>
      match skip with
      | S k => remove_from pat k s'
      | O =>
          if startswith pat s
          then remove_from pat (Nat.pred (String.length pat)) s'
          else String c (remove_from pat O s')
      end
  end.

Definition remove_all (pat s : string) : string := remove_from pat O s.

(** [s.replace(old, new)] for a one-character [old]. *)
Fixpoint replace_char (old : ascii) (new : string) (s : string) : string :=
  match s with
  | EmptyString => EmptyString
  | String c s' =>
      if Ascii.eqb c old then new +++ replace_char old new s'
      else String c (replace_char old new s')
  end.

(** [s.split(sep)] for a one-character [sep]: never the empty list. *)
Fixpoint split (sep : ascii) (s : string) : list string :=
  match s with
  | EmptyString => [EmptyString]
  | String c s' =>
      if Ascii.eqb c sep then EmptyString :: split sep s'
      else match split sep s' with
           | h :: t => String c h :: t
           | [] => [String c EmptyString]
           end
  end.

(** [sep.join(parts)] *)
Fixpoint join (sep : string) (parts : list string) : string :=
  match parts with
  | [] => EmptyString
  | [p] => p
  | p :: ps => p +++ sep +++ join sep ps
  end.

(** [c.isspace()] on the code points below 256. *)
Definition isspace (c : ascii) : bool :=
  let n := nat_of_ascii c in
  (Nat.leb 9 n && Nat.leb n 13) || (Nat.leb 28 n && Nat.leb n 32)
  || Nat.eqb n 133 || Nat.eqb n 160.

Fixpoint lstrip (s : string) : string :=
  match s with
  | EmptyString => EmptyString
  | String c s' => if isspace c then lstrip s' else s
  end.

Fixpoint rstrip (s : string) : string :=
  match s with
  | EmptyString => EmptyString
  | String c s' =>
      match rstrip s' with
      | EmptyString => if isspace c then EmptyString else String c EmptyString
      | r => String c r
      end
  end.

(** [s.strip()] *)
Definition strip (s : string) : string := rstrip (lstrip s).

(** [s.lower()] on ASCII letters. *)
Definition lower_char (c : ascii) : ascii :=
  let n := nat_of_ascii c in
  if Nat.leb 65 n && Nat.leb n 90 then ascii_of_nat (n + 32) else c.

Fixpoint lower (s : string) : string :=
  match s with
  | EmptyString => EmptyString
  | String c s' => String (lower_char c) (lower s')
  end.

(** [str(n)] for a non-negative [int]. *)
Definition of_nat (n : nat) : string := NilEmpty.string_of_uint (Nat.to_uint n).

(** [s.find(c)]: the part before the first [c] and the part after it. *)
Fixpoint cut (c : ascii) (s : string) : option (string * string) :=
  match s with
  | EmptyString => None
  | String a s' =>
      if Ascii.eqb a c then Some (EmptyString, s')
      else match cut c s' with
           | Some (l, r) => Some (String a l, r)
           | None => None
           end
  end.

(** A truthy string is a non-empty one. *)
Definition truthy (s : string) : bool :=
  match s with EmptyString => false | _ => true end.

End PyStr.
Import PyStr.


(** ** Results that may be an exception

    [Raise msg] is a raised exception whose [str(e)] is [msg]. *)

Inductive exn (A : Type) : Type :=
| Ok (a : A)
| Raise (msg : string).
Arguments Ok {A} a.
Arguments Raise {A} msg.

(** ** [posixpath]

    A path string is resolved to the list of its components from the root,
    the way [os.path.abspath] does it: lexically, against the working
    directory.  The working directory is kept as such a component list. *)

Module PosixPath.

(** One step of [os.path.join(a, *p)]. *)
Definition join2 (path b : string) : string :=
  if startswith "/" b then b
  else if negb (truthy path) || endswith "/" path then path +++ b
  else path +++ "/" +++ b.

Definition join (a : string) (p : list string) : string := fold_left join2 p a.

(** One component in the loop of [normpath], for a path that is absolute:
    the stack [st] never holds [".."]. *)
Definition norm_step (st : list string) (comp : string) : list string :=
  if String.eqb comp "" || String.eqb comp "." then st
  else if String.eqb comp ".." then removelast st
  else (st ++ [comp])%list.

(** The components of [abspath(p)] when the working directory is [cwd]. *)
Definition resolve (cwd : list string) (p : string) : list string :=
  fold_left norm_step (split "/" p) (if startswith "/" p then [] else cwd).

(** [normpath] keeps exactly two leading slashes. *)
Definition root_of (p : string) : string :=
  if startswith "//" p && negb (startswith "///" p) then "//" else "/".

(** [os.path.abspath(p)] *)
Definition abspath (cwd : list string) (p : string) : string :=
  root_of p +++ PyStr.join "/" (resolve cwd p).

(** [os.path.commonprefix] on two component lists. *)
Fixpoint common_prefix (a b : list string) : list string :=
  match a, b with
  | x :: a', y :: b' => if String.eqb x y then x :: common_prefix a' b' else []
  | _, _ => []
  end.

(** [os.path.relpath(path, start)] *)
Definition relpath (cwd : list string) (path start : string) : exn string :=
  if negb (truthy path) then Raise "no path specified"
  else
    let start_list := resolve cwd start in
    let path_list := resolve cwd path in
    let i := List.length (common_prefix start_list path_list) in
    let rel_list :=
      (repeat ".." (List.length start_list - i) ++ drop i path_list)%list in
    match rel_list with
    | [] => Ok "."
    | x :: r => Ok (join x r)
    end.

End PosixPath.

(** ** [urllib.parse.urlparse]

    The fields [batch_save] reads, [netloc] and [path], as CPython's
    [urlsplit] and [urlparse] compute them. *)

Module Url.

Record parsed := { scheme : string; netloc : string; path : string }.

Definition is_alpha (c : ascii) : bool :=
  let n := nat_of_ascii c in
  (Nat.leb 65 n && Nat.leb n 90) || (Nat.leb 97 n && Nat.leb n 122).

Definition is_digit (c : ascii) : bool :=
  let n := nat_of_ascii c in Nat.leb 48 n && Nat.leb n 57.

Definition scheme_char (c : ascii) : bool :=
  is_alpha c || is_digit c || Ascii.eqb c "+" || Ascii.eqb c "-" || Ascii.eqb c ".".

Fixpoint all_chars (f : ascii -> bool) (s : string) : bool :=
  match s with
  | EmptyString => true
  | String c s' => f c && all_chars f s'
  end.

Fixpoint filter_chars (f : ascii -> bool) (s : string) : string :=
  match s with
  | EmptyString => EmptyString
  | String c s' => if f c then String c (filter_chars f s') else filter_chars f s'
  end.

(** The leading C0 control characters and spaces are stripped. *)
Fixpoint lstrip_c0 (s : string) : string :=
  match s with
  | EmptyString => EmptyString
  | String c s' => if Nat.leb (nat_of_ascii c) 32 then lstrip_c0 s' else s
  end.

(** Tab, line feed and carriage return are removed wherever they are. *)
Definition unsafe_char (c : ascii) : bool :=
  let n := nat_of_ascii c in Nat.eqb n 9 || Nat.eqb n 10 || Nat.eqb n 13.

Definition split_scheme (url : string) : string * string :=
  match cut ":" url with
  | Some (String c s as sch, rest) =>
      if is_alpha c && all_chars scheme_char sch then (lower sch, rest)
      else (EmptyString, url)
  | _ => (EmptyString, url)
  end.

(** The part before the first of [/], [?], [#], and the rest from it on. *)
Fixpoint split_netloc (s : string) : string * string :=
  match s with
  | EmptyString => (EmptyString, EmptyString)
  | String c s' =>
      if Ascii.eqb c "/" || Ascii.eqb c "?" || Ascii.eqb c "#" then (EmptyString, s)
      else let '(n, r) := split_netloc s' in (String c n, r)
  end.

Definition before (c : ascii) (s : string) : string :=
  match cut c s with
  | Some (l, _) => l
  | None => s
  end.

Definition uses_params : list string :=
  [""; "ftp"; "hdl"; "prospero"; "http"; "imap"; "https"; "shttp"; "rtsp";
   "rtspu"; "sip"; "sips"; "mms"; "sftp"; "tel"].

(** [_splitparams]: the path ends at the first [;] that comes after the
    last [/]. *)
Fixpoint cut_params (s : string) : string :=
  match s with
  | EmptyString => EmptyString
  | String c s' =>
      if Ascii.eqb c ";" && negb (contains "/" s') then EmptyString
      else String c (cut_params s')
  end.

Definition urlparse (url : string) : exn parsed :=
  let url := filter_chars (fun c => negb (unsafe_char c)) (lstrip_c0 url) in
  let '(sch, rest) := split_scheme url in
  let '(nl, rest) :=
    match rest with
    | String "/" (String "/" r) => split_netloc r
    | _ => (EmptyString, rest)
    end in
  if xorb (contains "[" nl) (contains "]" nl) then Raise "Invalid IPv6 URL"
  else
    let p := before "?" (before "#" rest) in
    let p := if bool_decide (sch ∈ uses_params) then cut_params p else p in
    Ok {| scheme := sch; netloc := nl; path := p |}.

End Url.

Import PosixPath.

(** ** The world outside the program *)

Inductive node : Type :=
| Dir
| File (content : string).

(** What [BeautifulSoup] and [html2text] make of a response body: the
    [<title>] element if there is one, with its [.string] (which is [None]
    for an empty title); the [<meta name="description">] element if there is
    one, with its [content] attribute if it has one; the anchors that carry
    an [href], in document order, with their text; the rendering of the
    whole document by [h2t.handle]. *)
Record Page : Type := {
  page_title : option (option string);
  page_description : option (option string);
  page_anchors : list (string * string);
  page_markdown : string }.

(** [requests.get(url)] followed by the parse: either stage may raise. *)
Inductive response : Type :=
| FetchError (msg : string)
| ParseError (msg : string)
| Fetched (pg : Page).

(** [fs] maps the component list of an absolute path to what is there; the
    root is always a directory.  [fault k] is the [OSError] the host raises
    when [k] is created or opened for writing (permissions, quota, name
    length), if any.  [clock] is what [datetime.now().isoformat()] returns
    at its successive calls. *)
Record World : Type := {
  fs : gmap (list string) node;
  cwd : list string;
  environ : gmap string string;
  mcp_config : option (gmap string string);
  net : string -> response;
  fault : list string -> option string;
  clock : nat -> string;
  ticks : nat }.

Definition set_fs (f : gmap (list string) node) (w : World) : World :=
  {| fs := f; cwd := cwd w; environ := environ w; mcp_config := mcp_config w;
     net := net w; fault := fault w; clock := clock w; ticks := ticks w |}.

Definition tick (w : World) : World :=
  {| fs := fs w; cwd := cwd w; environ := environ w; mcp_config := mcp_config w;
     net := net w; fault := fault w; clock := clock w; ticks := S (ticks w) |}.

(** [datetime.datetime.now().isoformat()] *)
Definition now (w : World) : World * string := (tick w, clock w (ticks w)).

Definition lookup_node (w : World) (k : list string) : option node :=
  match k with
  | [] => Some Dir
  | _ => fs w !! k
  end.

(** [os.path.exists(p)] *)
Definition path_exists (w : World) (p : string) : bool :=
  truthy p &&
  match lookup_node w (resolve (cwd w) p) with
  | Some _ => true
  | None => false
  end.

(** The directories of [os.makedirs(name, exist_ok=True)], from the root
    down: [pre] is where we are, [rest] what is still to be entered. *)
Fixpoint mkdir_chain (name : string) (pre rest : list string) (w : World)
  : World * exn unit :=
  match rest with
  | [] => (w, Ok tt)
  | c :: r =>
      let k := (pre ++ [c])%list in
      match fs w !! k with
      | Some Dir => mkdir_chain name k r w
      | Some (File _) =>
          (w, Raise ((match r with
                      | [] => "[Errno 17] File exists: '"
                      | _ => "[Errno 20] Not a directory: '"
                      end) +++ name +++ "'"))
      | None =>
          match fault w k with
          | Some e => (w, Raise e)
          | None => mkdir_chain name k r (set_fs (<[k := Dir]> (fs w)) w)
          end
      end
  end.

(** [os.makedirs(name, exist_ok=True)] *)
Definition makedirs (name : string) (w : World) : World * exn unit :=
  if truthy name then mkdir_chain name [] (resolve (cwd w) name) w
  else (w, Raise "[Errno 2] No such file or directory: ''").

(** [with open(name, 'w', encoding='utf-8') as f: f.write(content)] *)
Definition write_file (name content : string) (w : World) : World * exn unit :=
  let k := resolve (cwd w) name in
  if negb (truthy name) then (w, Raise "[Errno 2] No such file or directory: ''")
  else
    match k with
    | [] => (w, Raise ("[Errno 21] Is a directory: '" +++ name +++ "'"))
    | _ =>
        match lookup_node w (removelast k) with
        | None => (w, Raise ("[Errno 2] No such file or directory: '" +++ name +++ "'"))
        | Some (File _) => (w, Raise ("[Errno 20] Not a directory: '" +++ name +++ "'"))
        | Some Dir =>
            match fs w !! k with
            | Some Dir => (w, Raise ("[Errno 21] Is a directory: '" +++ name +++ "'"))
            | _ =>
                match fault w k with
                | Some e => (w, Raise e)
                | None => (set_fs (<[k := File content]> (fs w)) w, Ok tt)
                end
            end
        end
    end.

(** ** [get_filepath] *)

(** [mcp.get_config()] raises when [mcp_config] is [None]. *)
Definition get_filepath (w : World) : World * exn string :=
  let path :=
    match environ w !! "OUTPUT_PATH" with
    | Some p => if truthy p then Some p else None
    | None => None
    end in
  let path :=
    match path with
    | Some p => p
    | None =>
        match mcp_config w with
        | Some config => default "./output" (config !! "default_output_path")
        | None => "./output"
        end
    end in
  match makedirs path w with
  | (w1, Raise m) => (w1, Raise m)
  | (w1, Ok _) => (w1, Ok (abspath (cwd w1) path))
  end.

(** ** [map_links] *)

(** A [dict] with string keys, in insertion order. *)
Definition dict (V : Type) : Type := list (string * V).

Fixpoint dict_get {V : Type} (k : string) (d : dict V) : option V :=
  match d with
  | [] => None
  | (k', v) :: d' => if String.eqb k' k then Some v else dict_get k d'
  end.

(** [d[k] = v] *)
Fixpoint dict_set {V : Type} (k : string) (v : V) (d : dict V) : dict V :=
  match d with
  | [] => [(k, v)]
  | (k', v') :: d' =>
      if String.eqb k' k then (k', v) :: d' else (k', v') :: dict_set k v d'
  end.

(** [list(d.keys())] *)
Definition dict_keys {V : Type} (d : dict V) : list string := map fst d.

(** The test of line 234. *)
Definition eligible (href : string) : bool :=
  startswith "http" href
  && negb (contains "youtube.com" href)
  && negb (contains "youtu.be" href).

(** [a.text.strip() or href] *)
Definition link_text (href text : string) : string :=
  let t := strip text in if truthy t then t else href.

(** Lines 233-235, for one anchor [a] (its href and its text). *)
Definition collect_step (links : dict string) (a : string * string) : dict string :=
  if eligible (fst a) then dict_set (fst a) (link_text (fst a) (snd a)) links
  else links.

(** The loop of lines 232-235 over the anchors found by [find_all]. *)
Definition collect_links (anchors : list (string * string)) : dict string :=
  fold_left collect_step anchors [].

Inductive LinksResult : Type :=
| LinksSuccess (links : dict string)
| LinksError (error : string).

Definition map_links (url : string) (w : World) : LinksResult :=
  match net w url with
  | FetchError m => LinksError m
  | ParseError m => LinksError m
  | Fetched pg => LinksSuccess (collect_links (page_anchors pg))
  end.

(** ** [batch_save] *)

(** One element of [results]: the dictionary of lines 329-334 or the one of
    lines 337-341. *)
Inductive Outcome : Type :=
| Saved (url path : string) (title : option string)
| Failed (url error : string).

Definition outcome_url (o : Outcome) : string :=
  match o with
  | Saved u _ _ => u
  | Failed u _ => u
  end.

Definition status (o : Outcome) : string :=
  match o with
  | Saved _ _ _ => "saved"
  | Failed _ _ => "error"
  end.

Definition is_saved (o : Outcome) : bool := String.eqb (status o) "saved".
Definition is_error (o : Outcome) : bool := String.eqb (status o) "error".

(** How an f-string renders a value that is a string or [None]. *)
Definition fmt (v : option string) : string := default "None" v.

(** Lines 288-290. *)
Definition path_parts_of (p : Url.parsed) : list string :=
  match List.filter truthy (split "/" (Url.path p)) with
  | [] => ["index"]
  | parts => parts
  end.

(** Lines 293-295. *)
Definition filename_of (path_parts : list string) : string :=
  let filename := remove_all ".php" (remove_all ".html" (List.last path_parts "")) in
  if truthy filename then filename else "index".

(** Line 285. *)
Definition domain_dir_of (p : Url.parsed) : string :=
  replace_char ":" "_" (Url.netloc p).

(** Line 298. *)
Definition file_dir_of (base_path : string) (p : Url.parsed) : string :=
  join base_path (domain_dir_of p :: removelast (path_parts_of p)).

(** The name tried at the [n]-th probe: [stem.md], then [stem_1.md],
    [stem_2.md], ... *)
Definition candidate (file_dir filename : string) (n : nat) : string :=
  match n with
  | O => join file_dir [filename +++ ".md"]
  | S _ => join file_dir [filename +++ "_" +++ of_nat n +++ ".md"]
  end.

(** The loop of lines 304-306; [None] when [fuel] iterations did not end it. *)
Fixpoint probe (w : World) (file_dir filename : string) (fuel : nat)
  (filepath : string) (counter : nat) : option string :=
  if path_exists w filepath then
    match fuel with
    | O => None
    | S fuel' =>
        probe w file_dir filename fuel'
          (join file_dir [filename +++ "_" +++ of_nat counter +++ ".md"])
          (S counter)
    end
  else Some filepath.

(** Lines 302-306, with as many iterations as the file system has entries,
    and one more. *)
Definition unique_path (w : World) (file_dir filename : string) : option string :=
  probe w file_dir filename (S (size (fs w)))
    (join file_dir [filename +++ ".md"]) 1.

(** Lines 314-322. *)
Definition metadata_of (title : option string) (url domain description date : string)
  : string :=
  "---" +++ "
title: " +++ fmt title +++ "
url: " +++ url +++ "
domain: " +++ domain +++ "
description: " +++ description +++ "
date_saved: " +++ date +++ "
---

".

(** Line 309. *)
Definition title_of (pg : Page) (filename : string) : option string :=
  match page_title pg with
  | Some s => s
  | None => Some filename
  end.

(** Lines 310-311. *)
Definition description_of (pg : Page) : string :=
  match page_description pg with
  | Some d => default "" d
  | None => ""
  end.

(** Line 323. *)
Definition full_content_of (pg : Page) (url : string) (p : Url.parsed)
  (date : string) : string :=
  metadata_of (title_of pg (filename_of (path_parts_of p))) url (Url.netloc p)
    (description_of pg) date
  +++ page_markdown pg.

(** The body of the [for] loop, lines 274-341: the new world and the
    dictionary appended to [results].  [None] stands for a probe loop that
    does not end. *)
Definition save_one (base_path url : string) (w : World) : option (World * Outcome) :=
  match net w url with
  | FetchError m => Some (w, Failed url m)
  | ParseError m => Some (w, Failed url m)
  | Fetched pg =>
      match Url.urlparse url with
      | Raise m => Some (w, Failed url m)
      | Ok parsed_url =>
          let filename := filename_of (path_parts_of parsed_url) in
          let file_dir := file_dir_of base_path parsed_url in
          match makedirs file_dir w with
          | (w1, Raise m) => Some (w1, Failed url m)
          | (w1, Ok _) =>
              match unique_path w1 file_dir filename with
              | None => None
              | Some filepath =>
                  let '(w2, date) := now w1 in
                  match write_file filepath (full_content_of pg url parsed_url date) w2 with
                  | (w3, Raise m) => Some (w3, Failed url m)
                  | (w3, Ok _) => Some (w3, Saved url filepath (title_of pg filename))
                  end
              end
          end
      end
  end.

(** The [for] loop of line 273: [results] grows at its end. *)
Fixpoint batch_loop (base_path : string) (urls : list string) (w : World)
  (results : list Outcome) : option (World * list Outcome) :=
  match urls with
  | [] => Some (w, results)
  | url :: urls' =>
      match save_one base_path url w with
      | None => None
      | Some (w', o) => batch_loop base_path urls' w' (results ++ [o])%list
      end
  end.

(** [by_domain[domain].append(result)] on a [defaultdict(list)]. *)
Fixpoint dd_append {V : Type} (k : string) (v : V) (d : dict (list V)) : dict (list V) :=
  match d with
  | [] => [(k, [v])]
  | (k', vs) :: d' =>
      if String.eqb k' k then (k', (vs ++ [v])%list) :: d'
      else (k', vs) :: dd_append k v d'
  end.

(** Lines 351-354. *)
Fixpoint group_results (results : list Outcome) (by_domain : dict (list Outcome))
  : exn (dict (list Outcome)) :=
  match results with
  | [] => Ok by_domain
  | r :: rs =>
      if is_saved r then
        match Url.urlparse (outcome_url r) with
        | Raise m => Raise m
        | Ok p => group_results rs (dd_append (Url.netloc p) r by_domain)
        end
      else group_results rs by_domain
  end.

Definition outcome_path (o : Outcome) : string :=
  match o with
  | Saved _ p _ => p
  | Failed _ _ => ""
  end.

Definition outcome_title (o : Outcome) : option string :=
  match o with
  | Saved _ _ t => t
  | Failed _ _ => None
  end.

(** Lines 359-361. *)
Fixpoint render_entries (cwd : list string) (base_path : string)
  (entries : list Outcome) (index_content : string) : exn string :=
  match entries with
  | [] => Ok index_content
  | entry :: es =>
      match relpath cwd (outcome_path entry) base_path with
      | Raise m => Raise m
      | Ok relative_path =>
          render_entries cwd base_path es
            (index_content +++ "- [" +++ fmt (outcome_title entry) +++ "]("
             +++ relative_path +++ ")
")
      end
  end.

(** Lines 357-361. *)
Fixpoint render_domains (cwd : list string) (base_path : string)
  (by_domain : dict (list Outcome)) (index_content : string) : exn string :=
  match by_domain with
  | [] => Ok index_content
  | (domain, entries) :: ds =>
      match render_entries cwd base_path entries
              (index_content +++ "
## " +++ domain +++ "

") with
      | Raise m => Raise m
      | Ok index_content' => render_domains cwd base_path ds index_content'
      end
  end.

(** Lines 345-361: the text of the index. *)
Definition build_index (cwd : list string) (base_path : string)
  (results : list Outcome) : exn string :=
  match group_results results [] with
  | Raise m => Raise m
  | Ok by_domain =>
      render_domains cwd base_path by_domain "# Crawled Content Index

"
  end.

(** Lines 343-369: an exception is printed and dropped. *)
Definition write_index (base_path : string) (results : list Outcome) (w : World)
  : World * exn unit :=
  match build_index (cwd w) base_path results with
  | Raise m => (w, Raise m)
  | Ok index_content => write_file (join base_path ["index.md"]) index_content w
  end.

(** The values [urls] may be bound to. *)
Inductive pyval : Type :=
| PNone
| PNum (n : Z)
| PStr (s : string)
| PList (l : list string)
| PDict (d : list (string * pyval)).

Definition type_name (v : pyval) : string :=
  match v with
  | PNone => "NoneType"
  | PNum _ => "int"
  | PStr _ => "str"
  | PList _ => "list"
  | PDict _ => "dict"
  end.

Record BatchResult : Type := {
  processed : list Outcome;
  base_path : string;
  total_saved : nat;
  total_errors : nat }.

(** What [batch_save] returns: the dictionary of lines 262-265 or the one
    of lines 371-377. *)
Inductive Returned : Type :=
| TopError (error : string)
| Success (r : BatchResult).

Definition top_status (r : Returned) : string :=
  match r with
  | TopError _ => "error"
  | Success _ => "success"
  end.

(** Lines 259-265. *)
Inductive shape : Type :=
| Urls (l : list string)
| BadShape
| ShapeRaise (msg : string).

Definition shape_of (urls : pyval) : shape :=
  match urls with
  | PDict d =>
      match dict_get "links" d with
      | Some (PDict links) => Urls (dict_keys links)
      | Some v => ShapeRaise ("'" +++ type_name v +++ "' object has no attribute 'keys'")
      | None => BadShape
      end
  | PList l => Urls l
  | _ => BadShape
  end.

Definition shape_error : string :=
  "urls must be either a list of URLs or map_links() output dictionary".

(** Line 271. *)
Definition resolve_base (path : option string) (w : World) : World * exn string :=
  match path with
  | Some p => if truthy p then (w, Ok p) else get_filepath w
  | None => get_filepath w
  end.

Definition count (f : Outcome -> bool) (results : list Outcome) : nat :=
  List.length (List.filter f results).

(** [batch_save(urls, path)].  [None] stands for a run that does not end. *)
Definition batch_save (urls : pyval) (path : option string) (w : World)
  : option (World * exn Returned) :=
  match shape_of urls with
  | ShapeRaise m => Some (w, Raise m)
  | BadShape => Some (w, Ok (TopError shape_error))
  | Urls urls =>
      match resolve_base path w with
      | (w0, Raise m) => Some (w0, Raise m)
      | (w0, Ok base) =>
          match batch_loop base urls w0 [] with
          | None => None
          | Some (w1, results) =>
              let w2 := fst (write_index base results w1) in
              Some (w2, Ok (Success {| processed := results;
                                       base_path := base;
                                       total_saved := count is_saved results;
                                       total_errors := count is_error results |}))
          end
      end
  end.

(** ** The Path Deriver, as one function

    Lines 281-298 of the loop body: the directory and the filename stem a
    URL is saved under. *)

Definition derive_path (base_path url : string) : exn (string * string) :=
  match Url.urlparse url with
  | Raise m => Raise m
  | Ok p => Ok (file_dir_of base_path p, filename_of (path_parts_of p))
  end.

(** ** Vocabulary of the statements *)

(** [p] occurs in [s]. *)
Definition occurs (p s : string) : Prop := exists a b, s = a +++ p +++ b.

(** [Removed pat s r]: [r] is [s] without the occurrences of [pat], found
    from the left and without overlap. *)
Inductive Removed (pat : string) : string -> string -> Prop :=
| Removed_nil : Removed pat EmptyString EmptyString
| Removed_hit s r : Removed pat s r -> Removed pat (pat +++ s) r
| Removed_miss c s r :
    startswith pat (String c s) = false ->
    Removed pat s r -> Removed pat (String c s) (String c r).

(** Stripping a trailing [suf], and nothing else. *)
Definition strip_suffix (suf s : string) : string :=
  if endswith suf s
  then String.substring 0 (String.length s - String.length suf) s
  else s.

(** The stem when only a trailing [.html] or [.php] is stripped. *)
Definition suffix_stem (path_parts : list string) : string :=
  let filename := strip_suffix ".php" (strip_suffix ".html" (List.last path_parts "")) in
  if truthy filename then filename else "index".

(** The text of the last anchor of [anchors] whose href is [h]. *)
Fixpoint last_anchor_text (h : string) (anchors : list (string * string))
  : option string :=
  match anchors with
  | [] => None
  | (h', t) :: rest =>
      match last_anchor_text h rest with
      | Some t' => Some t'
      | None => if String.eqb h' h then Some t else None
      end
  end.

(** The domain an outcome is filed under in the index. *)
Definition domain_of (o : Outcome) : string :=
  match Url.urlparse (outcome_url o) with
  | Ok p => Url.netloc p
  | Raise _ => ""
  end.

(** The distinct elements of a list, in the order they first appear. *)
Fixpoint first_seen (l : list string) : list string :=
  match l with
  | [] => []
  | x :: r => x :: List.filter (fun y => negb (String.eqb x y)) (first_seen r)
  end.

(** The groups of a list of saved outcomes: one per domain, domains in
    first-seen order, each with its outcomes in their original order. *)
Definition groups_of (saved : list Outcome) : list (string * list Outcome) :=
  map (fun d => (d, List.filter (fun o => String.eqb (domain_of o) d) saved))
      (first_seen (map domain_of saved)).

(** The groups of the index: those of the outcomes with status [saved]. *)
Definition index_groups (results : list Outcome) : list (string * list Outcome) :=
  groups_of (List.filter is_saved results).

(** One round of the loop of lines 351-354 when the URL parses. *)
Definition group_step (by_domain : dict (list Outcome)) (r : Outcome)
  : dict (list Outcome) :=
  if is_saved r then dd_append (domain_of r) r by_domain else by_domain.

(** The link target of an entry: its path relative to the output root. *)
Definition link_target (cwd : list string) (base_path : string) (o : Outcome) : string :=
  match relpath cwd (outcome_path o) base_path with
  | Ok r => r
  | Raise _ => ""
  end.

Definition index_entry (cwd : list string) (base_path : string) (o : Outcome) : string :=
  "- [" +++ fmt (outcome_title o) +++ "](" +++ link_target cwd base_path o +++ ")
".

Definition concat_str (l : list string) : string := fold_right app "" l.

Definition index_section (cwd : list string) (base_path : string)
  (g : string * list Outcome) : string :=
  "
## " +++ fst g +++ "

" +++ concat_str (map (index_entry cwd base_path) (snd g)).

(** The index as the sections of its groups under the title line. *)
Definition index_text (cwd : list string) (base_path : string)
  (results : list Outcome) : string :=
  "# Crawled Content Index

" +++ concat_str (map (index_section cwd base_path) (index_groups results)).

(** An outcome the index can render: a saved one has a URL that parses and
    a path. *)
Definition indexable (o : Outcome) : Prop :=
  is_saved o = true ->
  (exists p, Url.urlparse (outcome_url o) = Ok p) /\ truthy (outcome_path o) = true.

Definition not_slash (c : ascii) : bool := negb (Ascii.eqb c "/").

(** A name without a slash. *)
Definition slash_free (s : string) : Prop := Url.all_chars not_slash s = true.

(** A name that [normpath] keeps as one component. *)
Definition normal_name (name : string) : Prop :=
  name <> "" /\ slash_free name /\ name <> "." /\ name <> "..".

(** The file name tried at the [n]-th probe. *)
Definition candidate_name (filename : string) (n : nat) : string :=
  match n with
  | O => filename +++ ".md"
  | S _ => filename +++ "_" +++ of_nat n +++ ".md"
  end.


(** ** [get_default_output_path] and the dictionaries [map_links] returns *)

(** Line 22: [os.environ.get("OUTPUT_PATH", "./output")]. *)
Definition get_default_output_path (w : World) : string :=
  default "./output" (environ w !! "OUTPUT_PATH").

(** The dictionary [map_links] returns, as a value [batch_save] may be
    handed: lines 237-240 on success, line 242 on an exception. *)
Definition links_result_py (r : LinksResult) : pyval :=
  match r with
  | LinksSuccess links =>
      PDict [("status", PStr "success");
             ("links", PDict (map (fun kv => (fst kv, PStr (snd kv))) links))]
  | LinksError e => PDict [("status", PStr "error"); ("error", PStr e)]
  end.

(** The hrefs [map_links] keeps, in the order they first appear. *)
Definition kept_hrefs (pg : Page) : list string :=
  first_seen (List.filter eligible (map fst (page_anchors pg))).

(** Where the index of a batch is written: line 364. *)
Definition index_path (base_path : string) : string := join base_path ["index.md"].

(** ** Sample worlds

    Concrete pages and worlds on which the statements below are run. *)

Definition sample_page : Page :=
  {| page_title := Some (Some "Hello");
     page_description := Some (Some "A page");
     page_anchors :=
       [("https://example.com/about", " About ");
        ("/relative", "Relative");
        ("https://www.youtube.com/watch", "Video");
        ("https://example.com/about", "About Us");
        ("https://example.com/blank", "   ")];
     page_markdown := "# Hello" |}.

(** A page whose [<title>] element is empty. *)
Definition empty_title_page : Page :=
  {| page_title := Some None;
     page_description := None;
     page_anchors := [];
     page_markdown := "text" |}.

Definition sample_net (url : string) : response :=
  if String.eqb url "https://down.example/x" then FetchError "connection refused"
  else if String.eqb url "https://example.com/empty" then Fetched empty_title_page
  else Fetched sample_page.

Definition sample_world : World :=
  {| fs := ∅;
     cwd := ["home"; "crawl"];
     environ := ∅;
     mcp_config := None;
     net := sample_net;
     fault := fun _ => None;
     clock := fun n => "2024-01-01T00:00:0" +++ of_nat n;
     ticks := 0 |}.

(** A world in which [OUTPUT_PATH] names a regular file. *)
Definition blocked_world : World :=
  {| fs := {[ ["data"] := File "not a directory" ]};
     cwd := ["home"; "crawl"];
     environ := {[ "OUTPUT_PATH" := "/data" ]};
     mcp_config := None;
     net := sample_net;
     fault := fun _ => None;
     clock := fun n => "2024-01-01T00:00:0" +++ of_nat n;
     ticks := 0 |}.

(** A world in which [out/index.md] is a directory, so that the index
    cannot be written. *)
Definition index_blocked_world : World :=
  {| fs := {[ ["home"] := Dir; ["home"; "crawl"] := Dir;
              ["home"; "crawl"; "out"] := Dir;
              ["home"; "crawl"; "out"; "index.md"] := Dir ]};
     cwd := ["home"; "crawl"];
     environ := ∅;
     mcp_config := None;
     net := sample_net;
     fault := fun _ => None;
     clock := fun n => "2024-01-01T00:00:0" +++ of_nat n;
     ticks := 0 |}.

(** A world in which [OUTPUT_PATH] names a directory to be created. *)
Definition override_world : World :=
  {| fs := ∅;
     cwd := ["home"; "crawl"];
     environ := {[ "OUTPUT_PATH" := "data/out" ]};
     mcp_config := Some {[ "default_output_path" := "elsewhere" ]};
     net := sample_net;
     fault := fun _ => None;
     clock := fun n => "2024-01-01T00:00:0" +++ of_nat n;
     ticks := 0 |}.

(** A world in which [OUTPUT_PATH] is set to the empty string. *)
Definition empty_env_world : World :=
  {| fs := ∅;
     cwd := ["home"; "crawl"];
     environ := {[ "OUTPUT_PATH" := "" ]};
     mcp_config := None;
     net := sample_net;
     fault := fun _ => None;
     clock := fun n => "2024-01-01T00:00:0" +++ of_nat n;
     ticks := 0 |}.

(** * Properties *)

(** ** Strings *)

Section StringFacts.

Implicit Types (s p r a b : string) (c : ascii).

Lemma append_nil_r s : s +++ "" = s.
Proof. induction s as [|c s IH]; simpl; congruence. Qed.

Lemma append_assoc a b r : (a +++ b) +++ r = a +++ b +++ r.
Proof. induction a as [|c a IH]; simpl; congruence. Qed.

Lemma append_length a b :
  String.length (a +++ b) = String.length a + String.length b.
Proof. induction a as [|c a IH]; simpl; congruence. Qed.

Lemma append_eq_nil a b : a +++ b = "" -> a = "" /\ b = "".
Proof. destruct a; simpl; [tauto | discriminate]. Qed.

Lemma append_inv_head a b r : a +++ b = a +++ r -> b = r.
Proof. induction a as [|c a IH]; simpl; [tauto | intros [= H]; auto]. Qed.

Lemma prefix_refl_app p r : startswith p (p +++ r) = true.
Proof.
  induction p as [|c p IH]; simpl; [done |].
  by rewrite Ascii.eqb_refl.
Qed.

Lemma prefix_app p s : startswith p s = true <-> exists r, s = p +++ r.
Proof.
  split; [| intros [r ->]; apply prefix_refl_app].
  revert s; induction p as [|c p IH]; intros s H; simpl in *.
  - by exists s.
  - destruct s as [|c' s]; [discriminate |].
    destruct (Ascii.eqb_spec c c') as [->|]; [| discriminate].
    simpl in H. destruct (IH _ H) as [r ->]. by exists r.
Qed.

Lemma contains_prefix p s : startswith p s = true -> contains p s = true.
Proof. destruct s; simpl; intros ->; done. Qed.

Lemma contains_occurs p s : contains p s = true <-> occurs p s.
Proof.
  split.
  - induction s as [|c s IH]; simpl; intros H.
    + apply prefix_app in H as [r H]. symmetry in H.
      apply append_eq_nil in H as [-> ->]. by exists "", "".
    + apply orb_true_iff in H as [H|H].
      * apply prefix_app in H as [r H]. exists "", r. by rewrite H.
      * destruct (IH H) as (a & b & ->). by exists (String c a), b.
  - intros (a & b & ->). induction a as [|c a IH]; simpl.
    + apply contains_prefix, prefix_refl_app.
    + rewrite IH. apply orb_true_r.
Qed.

Lemma truthy_nonempty s : truthy s = true <-> s <> "".
Proof. destruct s; simpl; split; intros; done. Qed.

Lemma string_eqb_eq a b : String.eqb a b = true <-> a = b.
Proof. apply String.eqb_eq. Qed.

End StringFacts.

(** ** Dictionaries in insertion order *)

Section DictFacts.

Context {V : Type}.
Implicit Types (d : dict V) (k h : string) (v : V).

Lemma dict_get_set h k v d :
  dict_get h (dict_set k v d) = if String.eqb k h then Some v else dict_get h d.
Proof.
  induction d as [|[k' v'] d IH]; simpl.
  - reflexivity.
  - destruct (String.eqb_spec k' k) as [->|Hk]; simpl.
    + destruct (String.eqb_spec k h); reflexivity.
    + rewrite IH. destruct (String.eqb_spec k' h) as [->|]; [| reflexivity].
      destruct (String.eqb_spec k h); congruence.
Qed.

Lemma dict_keys_set k v d :
  dict_keys (dict_set k v d)
  = if bool_decide (k ∈ dict_keys d) then dict_keys d else (dict_keys d ++ [k])%list.
Proof.
  induction d as [|[k' v'] d IH]; simpl; [reflexivity |].
  destruct (String.eqb_spec k' k) as [->|Hk]; simpl.
  - rewrite bool_decide_eq_true_2; [reflexivity | left].
  - unfold dict_keys in *. rewrite IH.
    destruct (bool_decide_reflect (k ∈ map fst d)) as [Hin|Hin].
    + rewrite bool_decide_eq_true_2; [reflexivity | by right].
    + rewrite bool_decide_eq_false_2; [reflexivity |].
      intros [->|?]%elem_of_cons; done.
Qed.

Lemma dict_keys_get h d : h ∈ dict_keys d <-> is_Some (dict_get h d).
Proof.
  induction d as [|[k' v'] d IH]; simpl.
  - split; [by intros ?%elem_of_nil | by intros [? ?]].
  - rewrite elem_of_cons. destruct (String.eqb_spec k' h) as [->|Hk].
    + split; [by eexists | by left].
    + rewrite <- IH. split; [intros [?|?]; congruence | by right].
Qed.

Lemma dict_set_NoDup k v d : NoDup (dict_keys d) -> NoDup (dict_keys (dict_set k v d)).
Proof.
  intros Hd. rewrite dict_keys_set. case_bool_decide as Hin; [done |].
  apply NoDup_app. split_and!; [done | | apply NoDup_singleton].
  intros x Hx ->%list_elem_of_singleton. done.
Qed.

End DictFacts.

(** ** [map_links] *)

Lemma collect_links_fold anchors :
  collect_links anchors = fold_left collect_step anchors [].
Proof. reflexivity. Qed.

Lemma collect_fold_get h anchors acc :
  dict_get h (fold_left collect_step anchors acc)
  = match (if eligible h
           then option_map (link_text h) (last_anchor_text h anchors)
           else None) with
    | Some t => Some t
    | None => dict_get h acc
    end.
Proof.
  revert acc. induction anchors as [|[h' t] rest IH]; intros acc; simpl.
  - by destruct (eligible h).
  - rewrite IH. unfold collect_step; simpl.
    destruct (eligible h) eqn:Eh; simpl.
    + destruct (last_anchor_text h rest) as [t'|]; simpl; [reflexivity |].
      destruct (String.eqb_spec h' h) as [->|Hne]; simpl.
      * by rewrite Eh, dict_get_set, String.eqb_refl.
      * destruct (eligible h'); [| reflexivity].
        rewrite dict_get_set. by destruct (String.eqb_spec h' h).
    + destruct (eligible h') eqn:Eh'; [| reflexivity].
      rewrite dict_get_set. destruct (String.eqb_spec h' h); congruence.
Qed.

Lemma collect_fold_NoDup anchors acc :
  NoDup (dict_keys acc) -> NoDup (dict_keys (fold_left collect_step anchors acc)).
Proof.
  revert acc. induction anchors as [|a rest IH]; intros acc Hacc; simpl; [done |].
  apply IH. unfold collect_step. destruct (eligible (fst a)); [| done].
  by apply dict_set_NoDup.
Qed.

Lemma last_anchor_text_Some h anchors :
  is_Some (last_anchor_text h anchors) <-> h ∈ map fst anchors.
Proof.
  induction anchors as [|[h' t] rest IH]; simpl.
  - split; [by intros [? ?] | by intros ?%elem_of_nil].
  - rewrite elem_of_cons, <- IH.
    destruct (last_anchor_text h rest) as [t'|].
    + split; [right | intros _]; by eexists.
    + destruct (String.eqb_spec h' h) as [->|Hne].
      * split; [by left | by eexists].
      * split; [by intros [? ?] | intros [?|[? ?]]; congruence].
Qed.

Lemma eligible_spec h :
  eligible h = true <->
  (exists r, h = "http" +++ r) /\ ~ occurs "youtube.com" h /\ ~ occurs "youtu.be" h.
Proof.
  unfold eligible. rewrite !andb_true_iff, !negb_true_iff.
  rewrite prefix_app, <- !contains_occurs, !not_true_iff_false. tauto.
Qed.

(** C6. On a page that is fetched, [map_links] returns a mapping whose keys
    are pairwise distinct and are exactly the hrefs of the page's anchors
    that begin with [http] and contain neither [youtube.com] nor [youtu.be];
    each key maps to the stripped text of the last anchor with that href, or
    to the href itself when that text is empty.  In particular an href that
    contains an excluded fragment, or does not begin with [http], is not a
    key. *)
Theorem map_links_mapping url w pg :
  net w url = Fetched pg ->
  exists links,
    map_links url w = LinksSuccess links
    /\ NoDup (dict_keys links)
    /\ (forall h, h ∈ dict_keys links <->
                  h ∈ map fst (page_anchors pg)
                  /\ (exists r, h = "http" +++ r)
                  /\ ~ occurs "youtube.com" h /\ ~ occurs "youtu.be" h)
    /\ (forall h, h ∈ dict_keys links ->
                  exists t, last_anchor_text h (page_anchors pg) = Some t
                            /\ dict_get h links
                               = Some (if truthy (strip t) then strip t else h)).
Proof.
  intros Hnet. exists (collect_links (page_anchors pg)).
  unfold map_links. rewrite Hnet, collect_links_fold.
  assert (Hget : forall h, dict_get h (fold_left collect_step (page_anchors pg) [])
            = if eligible h
              then option_map (link_text h) (last_anchor_text h (page_anchors pg))
              else None).
  { intros h. rewrite collect_fold_get.
    by destruct (eligible h); [destruct (last_anchor_text _ _) |]. }
  split_and!.
  - reflexivity.
  - apply collect_fold_NoDup, NoDup_nil_2.
  - intros h. rewrite dict_keys_get, Hget, <- eligible_spec, <- last_anchor_text_Some.
    destruct (eligible h).
    + destruct (last_anchor_text h (page_anchors pg)); simpl.
      * split; [intros _; split; [by eexists | done] | by eexists].
      * split; [by intros [? ?] | by intros [[? ?] _]].
    + split; [by intros [? ?] | by intros [_ ?]].
  - intros h Hin. apply dict_keys_get in Hin as [v Hv]. rewrite Hget in Hv.
    rewrite Hget. destruct (eligible h); [| done].
    destruct (last_anchor_text h (page_anchors pg)) as [t|]; [| done].
    exists t. split; [reflexivity |]. reflexivity.
Qed.

(** ** The Path Deriver on the two documented URLs *)

(** C7. For [https://example.com:8080/a/b/c.html] the domain directory is
    the single name [example.com_8080] (the authority with its colon
    replaced, no slash in it), the directory is [example.com_8080/a/b] under
    the output root and the stem is [c]; for the bare domain
    [https://example.com] the stem is [index] and the directory is the
    domain directory itself, with nothing nested under it. *)
Theorem derive_path_examples :
  (forall base,
     derive_path base "https://example.com:8080/a/b/c.html"
     = Ok (join base ["example.com_8080"; "a"; "b"], "c"))
  /\ derive_path "/srv/out" "https://example.com:8080/a/b/c.html"
     = Ok ("/srv/out/example.com_8080/a/b", "c")
  /\ relpath [] "/srv/out/example.com_8080/a/b" "/srv/out" = Ok "example.com_8080/a/b"
  /\ (exists p, Url.urlparse "https://example.com:8080/a/b/c.html" = Ok p
                /\ Url.netloc p = "example.com:8080"
                /\ domain_dir_of p = "example.com_8080"
                /\ contains "/" (domain_dir_of p) = false)
  /\ (forall base,
        derive_path base "https://example.com" = Ok (join base ["example.com"], "index"))
  /\ derive_path "/srv/out" "https://example.com" = Ok ("/srv/out/example.com", "index").
Proof.
  split_and!; try (intros base); try (vm_compute; reflexivity).
  eexists. split; [vm_compute; reflexivity |]. split_and!; reflexivity.
Qed.

(** ** The two input shapes of [batch_save] *)


(** ** The filename stem *)

Lemma remove_from_skip pat a s :
  remove_from pat (String.length a) (a +++ s) = remove_from pat 0 s.
Proof. induction a as [|c a IH]; simpl; [reflexivity | exact IH]. Qed.

Lemma remove_all_Removed_bounded pat n :
  pat <> "" ->
  forall s, String.length s <= n -> Removed pat s (remove_all pat s).
Proof.
  intros Hpat. unfold remove_all.
  induction n as [|n IH]; intros s Hlen.
  - destruct s; [constructor | simpl in Hlen; lia].
  - destruct s as [|c s]; [constructor |].
    simpl in Hlen. cbn [remove_from].
    destruct (startswith pat (String c s)) eqn:Hp.
    + apply prefix_app in Hp as [r Hr].
      destruct pat as [|c0 pat']; [done |].
      simpl in Hr. injection Hr as -> ->.
      cbn [String.length Nat.pred]. rewrite remove_from_skip.
      change (String c0 (pat' +++ r)) with (String c0 pat' +++ r).
      apply Removed_hit, IH. rewrite append_length in Hlen. lia.
    + apply Removed_miss; [done |]. apply IH. lia.
Qed.

Lemma remove_all_Removed pat s : pat <> "" -> Removed pat s (remove_all pat s).
Proof. intros H. by apply (remove_all_Removed_bounded pat (String.length s)). Qed.

Lemma Removed_inv pat s r :
  Removed pat s r ->
  (s = "" /\ r = "")
  \/ (exists s0, s = pat +++ s0 /\ Removed pat s0 r)
  \/ (exists c s0 r0, s = String c s0 /\ r = String c r0
                      /\ startswith pat s = false /\ Removed pat s0 r0).
Proof. destruct 1; eauto 10. Qed.

Lemma Removed_functional pat s r r' :
  pat <> "" -> Removed pat s r -> Removed pat s r' -> r = r'.
Proof.
  intros Hpat H. revert r'.
  induction H as [|s r H IH|c s r Hp H IH]; intros r' H';
    apply Removed_inv in H' as [[E ->]|[(s0 & E & H')|(c' & s0 & r0 & E & -> & Hp' & H')]].
  - reflexivity.
  - symmetry in E. apply append_eq_nil in E as [? _]. done.
  - discriminate E.
  - apply append_eq_nil in E as [? _]. done.
  - apply append_inv_head in E as ->. by apply IH.
  - rewrite prefix_refl_app in Hp'. done.
  - discriminate E.
  - rewrite E, prefix_refl_app in Hp. done.
  - injection E as -> ->. f_equal. by apply IH.
Qed.

Lemma last_path_parts p :
  List.last (path_parts_of p) ""
  = List.last (List.filter truthy (split "/" (Url.path p))) "index".
Proof.
  unfold path_parts_of.
  destruct (List.filter truthy (split "/" (Url.path p))) as [|x l] eqn:E; [done |].
  clear E. generalize x. induction l as [|y l IH]; intros z; [done |].
  change (List.last (z :: y :: l) "") with (List.last (y :: l) "").
  change (List.last (z :: y :: l) "index") with (List.last (y :: l) "index").
  apply IH.
Qed.

(** C3, as the code has it.  The stem of a URL is obtained from the last
    non-empty segment of its path ([index] when there is none) by removing
    every occurrence of [.html], wherever it is in the segment, then every
    occurrence of [.php] from the result; it is [index] when nothing is
    left.  The two removals are the only results [Removed] allows. *)
Theorem stem_removes_every_occurrence base url p :
  Url.urlparse url = Ok p ->
  let segment := List.last (List.filter truthy (split "/" (Url.path p))) "index" in
  exists dir r1 r2,
    derive_path base url = Ok (dir, if truthy r2 then r2 else "index")
    /\ Removed ".html" segment r1
    /\ Removed ".php" r1 r2
    /\ (forall r1' r2', Removed ".html" segment r1' -> Removed ".php" r1' r2' ->
                        r2' = r2).
Proof.
  intros Hp segment. unfold derive_path. rewrite Hp.
  exists (file_dir_of base p), (remove_all ".html" segment),
    (remove_all ".php" (remove_all ".html" segment)).
  split_and!.
  - unfold filename_of. by rewrite last_path_parts.
  - by apply remove_all_Removed.
  - by apply remove_all_Removed.
  - intros r1' r2' H1 H2.
    assert (r1' = remove_all ".html" segment) as ->.
    { eapply Removed_functional; [| exact H1 | by apply remove_all_Removed]; done. }
    eapply Removed_functional; [| exact H2 | by apply remove_all_Removed]; done.
Qed.

(** C3 as the specification words it fails: on
    [https://example.com/a.html.bak] the last segment does not end in
    [.html] or [.php], so stripping a trailing suffix leaves [a.html.bak],
    while the code yields [a.bak]. *)
Lemma stem_is_not_suffix_stripping :
  ~ (forall url p,
       Url.urlparse url = Ok p ->
       filename_of (path_parts_of p) = suffix_stem (path_parts_of p)).
Proof.
  intros H.
  specialize (H "https://example.com/a.html.bak"
                {| Url.scheme := "https"; Url.netloc := "example.com";
                   Url.path := "/a.html.bak" |} eq_refl).
  vm_compute in H. discriminate H.
Qed.

(** ** The file system *)

Section FileSystemFacts.

Implicit Types (w : World) (k pre rest : list string) (name : string).

Lemma set_fs_fs f w : fs (set_fs f w) = f.
Proof. reflexivity. Qed.

Lemma set_fs_set_fs f g w : set_fs f (set_fs g w) = set_fs f w.
Proof. reflexivity. Qed.

Lemma set_fs_same w : set_fs (fs w) w = w.
Proof. by destruct w. Qed.

(** Creating directories touches nothing but the file system. *)
Lemma mkdir_chain_frame name rest pre w :
  (mkdir_chain name pre rest w).1 = set_fs (fs (mkdir_chain name pre rest w).1) w.
Proof.
  revert pre w. induction rest as [|c r IH]; intros pre w; simpl.
  - by rewrite set_fs_same.
  - destruct (fs w !! (pre ++ [c])) as [[|content]|] eqn:E; simpl.
    + apply IH.
    + by rewrite set_fs_same.
    + destruct (fault w (pre ++ [c])); simpl; [by rewrite set_fs_same |].
      rewrite IH at 1. by rewrite set_fs_set_fs.
Qed.

(** It never changes what is already there. *)
Lemma mkdir_chain_mono name rest pre w k n :
  fs w !! k = Some n -> fs (mkdir_chain name pre rest w).1 !! k = Some n.
Proof.
  revert pre w. induction rest as [|c r IH]; intros pre w Hk; simpl; [done |].
  destruct (fs w !! (pre ++ [c])) as [[|content]|] eqn:E; simpl; [by apply IH | done |].
  destruct (fault w (pre ++ [c])); simpl; [done |].
  apply IH. rewrite set_fs_fs, lookup_insert_ne; [done | congruence].
Qed.

(** What it adds are directories on the way to the target. *)
Lemma mkdir_chain_new name rest pre w k :
  fs w !! k = None ->
  is_Some (fs (mkdir_chain name pre rest w).1 !! k) ->
  fs (mkdir_chain name pre rest w).1 !! k = Some Dir
  /\ exists r1 r2, rest = (r1 ++ r2)%list /\ r1 <> [] /\ k = (pre ++ r1)%list.
Proof.
  revert pre w. induction rest as [|c r IH]; intros pre w Hk Hs; simpl in *.
  - rewrite Hk in Hs. by destruct Hs.
  - assert (Hext : forall w',
      fs w' !! k = None ->
      is_Some (fs (mkdir_chain name (pre ++ [c]) r w').1 !! k) ->
      fs (mkdir_chain name (pre ++ [c]) r w').1 !! k = Some Dir
      /\ exists r1 r2, c :: r = (r1 ++ r2)%list /\ r1 <> [] /\ k = (pre ++ r1)%list).
    { intros w' Hk' Hs'. destruct (IH _ _ Hk' Hs') as (Hd & r1 & r2 & -> & Hr1 & ->).
      split; [done |]. exists (c :: r1), r2. split_and!; [done | done |].
      by rewrite <- app_assoc. }
    destruct (fs w !! (pre ++ [c])) as [[|content]|] eqn:E; simpl in *.
    + by apply Hext.
    + rewrite Hk in Hs. by destruct Hs.
    + destruct (fault w (pre ++ [c])); simpl in *.
      { rewrite Hk in Hs. by destruct Hs. }
      destruct (decide (k = (pre ++ [c])%list)) as [->|Hne].
      * split.
        -- apply mkdir_chain_mono. by rewrite set_fs_fs, lookup_insert_eq.
        -- exists [c], r. done.
      * apply Hext; [| done]. by rewrite set_fs_fs, lookup_insert_ne.
Qed.

(** When it succeeds the target is a directory. *)
Lemma mkdir_chain_target name rest pre w w1 :
  mkdir_chain name pre rest w = (w1, Ok tt) ->
  rest <> [] -> fs w1 !! (pre ++ rest)%list = Some Dir.
Proof.
  revert pre w. induction rest as [|c r IH]; intros pre w H Hne; [done |].
  simpl in H.
  assert (Hstep : forall w', fs w' !! (pre ++ [c])%list = Some Dir ->
            mkdir_chain name (pre ++ [c]) r w' = (w1, Ok tt) ->
            fs w1 !! (pre ++ c :: r)%list = Some Dir).
  { intros w' Hd H'. destruct r as [|c' r'].
    - simpl in H'. by injection H' as <-.
    - rewrite (assoc_L _ pre [c] (c' :: r') : (pre ++ c :: c' :: r' = (pre ++ [c]) ++ c' :: r')%list).
      by eapply IH. }
  destruct (fs w !! (pre ++ [c])) as [[|content]|] eqn:E.
  - by eapply Hstep.
  - discriminate H.
  - destruct (fault w (pre ++ [c])); [discriminate H |].
    eapply Hstep; [| exact H]. by rewrite set_fs_fs, lookup_insert_eq.
Qed.

(** Running it again changes nothing and gives the same result. *)
Lemma mkdir_chain_idem name rest pre w :
  mkdir_chain name pre rest (mkdir_chain name pre rest w).1
  = mkdir_chain name pre rest w.
Proof.
  revert pre w. induction rest as [|c r IH]; intros pre w; simpl; [done |].
  destruct (fs w !! (pre ++ [c])) as [[|content]|] eqn:E; simpl.
  - rewrite (mkdir_chain_mono _ _ _ _ _ _ E). apply IH.
  - by rewrite E.
  - destruct (fault w (pre ++ [c])) eqn:Ef; simpl; [by rewrite E, Ef |].
    set (w' := set_fs _ w).
    assert (E' : fs w' !! (pre ++ [c])%list = Some Dir)
      by (subst w'; by rewrite set_fs_fs, lookup_insert_eq).
    rewrite (mkdir_chain_mono _ _ _ _ _ _ E'). apply IH.
Qed.

Lemma makedirs_frame name w : (makedirs name w).1 = set_fs (fs (makedirs name w).1) w.
Proof.
  unfold makedirs. destruct (truthy name); [apply mkdir_chain_frame |].
  by rewrite set_fs_same.
Qed.

Lemma makedirs_mono name w k n :
  fs w !! k = Some n -> fs (makedirs name w).1 !! k = Some n.
Proof.
  unfold makedirs. destruct (truthy name); [apply mkdir_chain_mono | done].
Qed.

Lemma makedirs_idem name w : makedirs name (makedirs name w).1 = makedirs name w.
Proof.
  unfold makedirs. destruct (truthy name); [| done].
  assert (cwd (mkdir_chain name [] (resolve (cwd w) name) w).1 = cwd w) as ->
    by (by rewrite mkdir_chain_frame).
  apply mkdir_chain_idem.
Qed.

End FileSystemFacts.

(** ** [get_filepath] *)

(** The path [get_filepath] settles on: lines 178-186. *)
Lemma get_filepath_unfold w :
  exists path,
    get_filepath w
    = match makedirs path w with
      | (w1, Raise m) => (w1, Raise m)
      | (w1, Ok _) => (w1, Ok (abspath (cwd w1) path))
      end
    /\ forall f, get_filepath (set_fs f w)
                 = match makedirs path (set_fs f w) with
                   | (w1, Raise m) => (w1, Raise m)
                   | (w1, Ok _) => (w1, Ok (abspath (cwd w1) path))
                   end.
Proof. eexists. split; [reflexivity | intros f; reflexivity]. Qed.

(** Whatever the first call did, a second call in the world it left does
    the same and leaves that world as it is. *)
Lemma get_filepath_idem w : get_filepath (get_filepath w).1 = get_filepath w.
Proof.
  destruct (get_filepath_unfold w) as (path & H1 & H2).
  pose proof (makedirs_idem path w) as Hidem.
  pose proof (makedirs_frame path w) as Hframe.
  rewrite H1. destruct (makedirs path w) as [w1 [[]|m]] eqn:E; simpl in *.
  - rewrite Hframe, H2, <- Hframe, Hidem. reflexivity.
  - rewrite Hframe, H2, <- Hframe, Hidem. reflexivity.
Qed.

(** C9. If a call of [get_filepath] returns the path [p], leaving the world
    [w1] (in which the directory now exists), then a second call made in
    [w1], with the environment and the working directory as they were,
    returns [p] again, does not raise, and changes nothing. *)
Theorem get_filepath_twice w w1 p :
  get_filepath w = (w1, Ok p) ->
  get_filepath w1 = (w1, Ok p)
  /\ environ w1 = environ w /\ cwd w1 = cwd w
  /\ exists path, p = abspath (cwd w) path
                  /\ lookup_node w1 (resolve (cwd w) path) = Some Dir.
Proof.
  intros H. pose proof (get_filepath_idem w) as Hidem. rewrite H in Hidem.
  split; [exact Hidem |].
  destruct (get_filepath_unfold w) as (path & H1 & _). rewrite H in H1.
  pose proof (makedirs_frame path w) as Hframe.
  destruct (makedirs path w) as [w1' [[]|m]] eqn:E; [| discriminate H1].
  injection H1 as -> ->. simpl in Hframe.
  split_and!; [by rewrite Hframe | by rewrite Hframe |].
  exists path. split; [by rewrite Hframe |].
  unfold makedirs in E. destruct (truthy path); [| discriminate E].
  unfold lookup_node. destruct (resolve (cwd w) path) as [|c r] eqn:Er; [done |].
  by apply (mkdir_chain_target path (c :: r) [] w).
Qed.

(** ** Splitting and joining paths *)

Section PathFacts.

Implicit Types (s a b d name : string) (c : ascii).

Lemma split_nonnil sep s : split sep s <> [].
Proof.
  destruct s as [|c s]; simpl; [done |].
  destruct (Ascii.eqb c sep); [done |]. by destruct (split sep s).
Qed.

Lemma split_app sep a b :
  split sep (a +++ String sep b) = split sep a ++ split sep b.
Proof.
  induction a as [|c a IH]; simpl.
  - by rewrite Ascii.eqb_refl.
  - destruct (Ascii.eqb c sep); [by rewrite IH |].
    rewrite IH. pose proof (split_nonnil sep a). by destruct (split sep a).
Qed.

Lemma split_slash_free s : slash_free s -> split "/" s = [s].
Proof.
  unfold slash_free. induction s as [|c s IH]; simpl; [done |].
  intros [Hc Hs]%andb_true_iff. unfold not_slash in Hc.
  apply negb_true_iff in Hc. rewrite Hc, (IH Hs). done.
Qed.

Lemma split_elems_slash_free s x : x ∈ split "/" s -> slash_free x.
Proof.
  unfold slash_free. revert x. induction s as [|c s IH]; simpl; intros x Hx.
  - by apply list_elem_of_singleton in Hx as ->.
  - destruct (Ascii.eqb c "/") eqn:Ec.
    + apply elem_of_cons in Hx as [->|Hx]; [done | by apply IH].
    + pose proof (split_nonnil "/" s). destruct (split "/" s) as [|h t]; [done |].
      apply elem_of_cons in Hx as [->|Hx].
      * simpl. unfold not_slash at 1. rewrite Ec. simpl. apply IH. by left.
      * apply IH. by right.
Qed.

Lemma all_chars_app f a b :
  Url.all_chars f (a +++ b) = Url.all_chars f a && Url.all_chars f b.
Proof. induction a as [|c a IH]; simpl; [done |]. by rewrite IH, andb_assoc. Qed.

Lemma remove_from_all_chars f pat k s :
  Url.all_chars f s = true -> Url.all_chars f (remove_from pat k s) = true.
Proof.
  revert k. induction s as [|c s IH]; intros k; simpl; [done |].
  intros [Hc Hs]%andb_true_iff.
  destruct k; [| by apply IH].
  destruct (startswith pat (String c s)); [by apply IH |].
  simpl. by rewrite Hc, IH.
Qed.

Lemma string_of_uint_digits f u :
  (forall c, Url.is_digit c = true -> f c = true) ->
  Url.all_chars f (NilEmpty.string_of_uint u) = true.
Proof.
  intros Hf. induction u; simpl; [done | ..]; rewrite IHu, Hf; done.
Qed.

Lemma of_nat_slash_free n : slash_free (of_nat n).
Proof.
  unfold slash_free. apply string_of_uint_digits. intros c Hc. unfold not_slash.
  destruct (Ascii.eqb_spec c "/") as [->|]; [done | done].
Qed.

Lemma of_nat_inj n m : of_nat n = of_nat m -> n = m.
Proof.
  unfold of_nat. intros H.
  apply (f_equal NilEmpty.uint_of_string) in H. rewrite !NilEmpty.usu in H.
  injection H as H. apply (f_equal Nat.of_uint) in H.
  by rewrite !DecimalNat.Unsigned.of_to in H.
Qed.

Lemma append_inv_tail a b s : a +++ s = b +++ s -> a = b.
Proof.
  intros H.
  assert (Hlen : String.length a = String.length b).
  { apply (f_equal String.length) in H. rewrite !append_length in H. lia. }
  revert b H Hlen. induction a as [|c a IH]; intros [|c' b] H Hlen;
    simpl in *; try done.
  injection H as -> H. f_equal. apply IH; [done | lia].
Qed.

Lemma endswith_app p s : endswith p s = true -> exists a, s = a +++ p.
Proof.
  induction s as [|c s IH]; simpl.
  - intros ->%String.eqb_eq. by exists "".
  - intros [->%String.eqb_eq | H]%orb_true_iff; [by exists "" |].
    destruct (IH H) as [a ->]. by exists (String c a).
Qed.

End PathFacts.

Section ResolveFacts.

Implicit Types (s a b d name : string) (c : ascii) (cwd st : list string).

Lemma startswith_slash_cons c s : startswith "/" (String c s) = Ascii.eqb c "/".
Proof. cbn [startswith]. rewrite andb_true_r. apply Ascii.eqb_sym. Qed.

Lemma startswith_app_nonempty p s x :
  s <> "" -> startswith (String p "") (s +++ x) = startswith (String p "") s.
Proof. destruct s; [done | reflexivity]. Qed.

Lemma normal_name_head name :
  normal_name name -> exists c s, name = String c s /\ Ascii.eqb c "/" = false.
Proof.
  intros (Hne & Hsf & _). destruct name as [|c s]; [done |].
  exists c, s. split; [done |]. unfold slash_free in Hsf. simpl in Hsf.
  apply andb_true_iff in Hsf as [Hc _]. by apply negb_true_iff in Hc.
Qed.

Lemma norm_step_normal st name : normal_name name -> norm_step st name = st ++ [name].
Proof.
  intros (Hne & _ & Hdot & Hdd). unfold norm_step.
  destruct (String.eqb_spec name ""); [done |].
  destruct (String.eqb_spec name "."); [done |].
  destruct (String.eqb_spec name ".."); [done |]. reflexivity.
Qed.

Lemma norm_step_empty st : norm_step st "" = st.
Proof. reflexivity. Qed.

Lemma join_single d name : join d [name] = join2 d name.
Proof. reflexivity. Qed.

Lemma resolve_join cwd d name :
  normal_name name -> resolve cwd (join d [name]) = resolve cwd d ++ [name].
Proof.
  intros Hn. rewrite join_single. unfold join2.
  destruct (normal_name_head _ Hn) as (c & s & Hname & Hc).
  assert (Hsl : startswith "/" name = false) by (by rewrite Hname, startswith_slash_cons).
  assert (Hsplit : split "/" name = [name]) by (apply split_slash_free, Hn).
  rewrite Hsl.
  destruct (truthy d) eqn:Ht; cbn [negb orb].
  - assert (Hd : d <> "") by (by destruct d).
    destruct (endswith "/" d) eqn:Hend.
    + apply endswith_app in Hend as [a Ha].
      unfold resolve. rewrite (startswith_app_nonempty _ _ _ Hd).
      rewrite Ha, append_assoc.
      change ("/" +++ name) with (String "/" name).
      change (a +++ "/") with (a +++ String "/" "").
      rewrite !split_app, Hsplit. cbn [split].
      rewrite !fold_left_app. cbn [fold_left].
      by rewrite norm_step_normal, norm_step_empty.
    + unfold resolve. rewrite (startswith_app_nonempty _ _ _ Hd).
      change ("/" +++ name) with (String "/" name).
      rewrite split_app, Hsplit, fold_left_app. cbn [fold_left].
      by rewrite norm_step_normal.
  - destruct d; [| done]. cbn [app]. unfold resolve. rewrite Hsl, Hsplit.
    cbn [fold_left split startswith]. by rewrite norm_step_normal, norm_step_empty.
Qed.

Lemma join_single_truthy d name : name <> "" -> truthy (join d [name]) = true.
Proof.
  intros Hne. rewrite join_single. unfold join2.
  destruct (startswith "/" name); [by destruct name |].
  destruct (negb (truthy d) || endswith "/" d).
  - destruct d; simpl; [by destruct name | done].
  - destruct d; simpl; done.
Qed.

Lemma candidate_join d f n : candidate d f n = join d [candidate_name f n].
Proof. by destruct n. Qed.

Lemma candidate_name_normal f n : slash_free f -> normal_name (candidate_name f n).
Proof.
  intros Hf. unfold normal_name, slash_free in *.
  assert (Hlen : 3 <= String.length (candidate_name f n)).
  { destruct n; cbn [candidate_name]; rewrite !append_length;
      change (String.length ".md") with 3; lia. }
  split_and!.
  - intros E. rewrite E in Hlen. simpl in Hlen. lia.
  - destruct n; cbn [candidate_name]; rewrite !all_chars_app, Hf; [done |].
    change (Url.all_chars not_slash "_") with true.
    change (Url.all_chars not_slash ".md") with true.
    pose proof (of_nat_slash_free (S n)) as Hn. unfold slash_free in Hn.
    by rewrite Hn.
  - intros E. rewrite E in Hlen. simpl in Hlen. lia.
  - intros E. rewrite E in Hlen. simpl in Hlen. lia.
Qed.

Lemma candidate_name_inj f n m : candidate_name f n = candidate_name f m -> n = m.
Proof.
  destruct n as [|n], m as [|m]; cbn [candidate_name]; intros H; [done | | |].
  - apply append_inv_head in H. discriminate H.
  - apply append_inv_head in H. discriminate H.
  - apply append_inv_head in H. cbn [app] in H. injection H as H.
    by apply append_inv_tail, of_nat_inj in H.
Qed.

Lemma resolve_candidate cwd d f n :
  slash_free f ->
  resolve cwd (candidate d f n) = resolve cwd d ++ [candidate_name f n].
Proof.
  intros Hf. rewrite candidate_join. by apply resolve_join, candidate_name_normal.
Qed.

End ResolveFacts.

(** ** The probe for an unused name *)

Lemma last_Forall (P : string -> Prop) l dflt :
  Forall P l -> P dflt -> P (List.last l dflt).
Proof.
  induction 1 as [|x l Hx Hl IH]; intros Hd; [done |].
  destruct l as [|y l']; [done |]. by apply IH.
Qed.

Lemma filename_of_slash_free p : slash_free (filename_of (path_parts_of p)).
Proof.
  unfold filename_of.
  destruct (truthy (remove_all ".php" _)); [| reflexivity].
  unfold slash_free, remove_all. do 2 apply remove_from_all_chars.
  apply (last_Forall slash_free); [| reflexivity].
  unfold path_parts_of.
  destruct (List.filter truthy (split "/" (Url.path p))) as [|x l] eqn:E.
  - by repeat constructor.
  - rewrite <- E. apply Forall_forall. intros y Hy.
    apply list_elem_of_In, filter_In in Hy as [Hy _].
    apply list_elem_of_In in Hy. by eapply split_elems_slash_free.
Qed.

Section ProbeFacts.

Variables (w : World) (d f : string).
Hypothesis Hf : slash_free f.

Lemma path_exists_candidate n :
  path_exists w (candidate d f n) = true
  <-> is_Some (fs w !! (resolve (cwd w) d ++ [candidate_name f n])).
Proof using Hf.
  unfold path_exists. rewrite resolve_candidate by done.
  rewrite candidate_join, join_single_truthy
    by (apply (candidate_name_normal f n Hf)).
  cbn [andb]. unfold lookup_node.
  destruct (resolve (cwd w) d ++ [candidate_name f n]) as [|x l] eqn:E.
  - by apply app_nil in E as [_ ?].
  - destruct (fs w !! (x :: l)); split; intros H;
      try done; try (by eexists); by destruct H.
Qed.

Lemma probe_spec fuel n p :
  probe w d f fuel (candidate d f n) (S n) = Some p ->
  exists k, p = candidate d f (n + k)
            /\ path_exists w p = false
            /\ forall j, j < k -> path_exists w (candidate d f (n + j)) = true.
Proof.
  revert n. induction fuel as [|fuel IH]; intros n; cbn [probe];
    destruct (path_exists w (candidate d f n)) eqn:E; intros H; try discriminate H.
  - injection H as <-. exists 0. rewrite Nat.add_0_r. split_and!; [done | done |].
    intros j Hj; lia.
  - destruct (IH (S n) H) as (k & -> & Hno & Hall).
    exists (S k). replace (n + S k) with (S n + k) by lia. split_and!; [done | done |].
    intros [|j] Hj.
    + by rewrite Nat.add_0_r.
    + replace (n + S j) with (S n + j) by lia. apply Hall. lia.
  - injection H as <-. exists 0. rewrite Nat.add_0_r. split_and!; [done | done |].
    intros j Hj; lia.
Qed.

Lemma probe_None fuel n :
  probe w d f fuel (candidate d f n) (S n) = None ->
  forall j, j <= fuel -> path_exists w (candidate d f (n + j)) = true.
Proof.
  revert n. induction fuel as [|fuel IH]; intros n; cbn [probe];
    destruct (path_exists w (candidate d f n)) eqn:E; intros H; try discriminate H.
  - intros j Hj. replace j with 0 by lia. by rewrite Nat.add_0_r.
  - intros [|j] Hj; [by rewrite Nat.add_0_r |].
    replace (n + S j) with (S n + j) by lia. apply IH; [done | lia].
Qed.

(** No more candidates exist than the file system has entries. *)
Lemma candidates_bounded fuel :
  (forall j, j <= fuel -> path_exists w (candidate d f j) = true) ->
  S fuel <= size (fs w).
Proof using Hf.
  intros Hall.
  set (key := fun j => resolve (cwd w) d ++ [candidate_name f j]).
  assert (Hinj : Inj (=) (=) key).
  { intros i j Hij. unfold key in Hij.
    apply app_inv_head in Hij. injection Hij as Hij.
    by apply candidate_name_inj in Hij. }
  assert (Hnd : NoDup (key <$> seq 0 (S fuel))).
  { apply (NoDup_fmap_2 key), NoDup_seq. }
  assert (Hsub : (list_to_set (key <$> seq 0 (S fuel)) : gset (list string))
                   ⊆ dom (fs w)).
  { intros k Hk. apply elem_of_list_to_set, list_elem_of_fmap in Hk as (j & -> & Hj).
    apply elem_of_seq in Hj. apply elem_of_dom, path_exists_candidate, Hall. lia. }
  apply subseteq_size in Hsub.
  rewrite size_list_to_set, length_fmap, length_seq, size_dom in Hsub; done.
Qed.

(** The loop of lines 304-306 ends. *)
Lemma unique_path_total : is_Some (unique_path w d f).
Proof using Hf.
  unfold unique_path.
  change (join d [f +++ ".md"]) with (candidate d f 0).
  destruct (probe w d f (S (size (fs w))) (candidate d f 0) 1) eqn:E; [by eexists |].
  pose proof (candidates_bounded _ (probe_None _ _ E)). lia.
Qed.

(** It ends on the first candidate that does not exist. *)
Lemma unique_path_spec p :
  unique_path w d f = Some p ->
  exists k, p = candidate d f k
            /\ path_exists w p = false
            /\ forall j, j < k -> path_exists w (candidate d f j) = true.
Proof.
  unfold unique_path. change (join d [f +++ ".md"]) with (candidate d f 0).
  intros H. by apply probe_spec in H.
Qed.

End ProbeFacts.

(** ** One URL *)

Section SaveOneFacts.

Implicit Types (w : World) (o : Outcome) (base url : string).

Lemma write_file_frame name content w :
  (write_file name content w).1 = set_fs (fs (write_file name content w).1) w.
Proof.
  unfold write_file. destruct (negb (truthy name)); [by rewrite set_fs_same |].
  destruct (resolve (cwd w) name) as [|x l]; [by rewrite set_fs_same |].
  destruct (lookup_node w (removelast (x :: l))) as [[|?]|];
    try (by rewrite set_fs_same).
  destruct (fs w !! (x :: l)) as [[|?]|]; try (by rewrite set_fs_same);
    destruct (fault w (x :: l)); by rewrite ?set_fs_same.
Qed.

(** A write that succeeds puts the content at the path, where no directory
    was, and touches nothing else. *)
Lemma write_file_ok name content w w' :
  write_file name content w = (w', Ok tt) ->
  w' = set_fs (<[resolve (cwd w) name := File content]> (fs w)) w
  /\ fs w !! resolve (cwd w) name <> Some Dir.
Proof.
  unfold write_file. destruct (negb (truthy name)); [discriminate |].
  destruct (resolve (cwd w) name) as [|x l]; [discriminate |].
  destruct (lookup_node w (removelast (x :: l))) as [[|?]|]; try discriminate.
  destruct (fs w !! (x :: l)) as [[|?]|]; try discriminate;
    destruct (fault w (x :: l)); try discriminate;
    intros [= <-]; split; done.
Qed.

(** A write that raises changes nothing, and whether it raises does not
    depend on the content. *)
Lemma write_file_raise name content w w' m :
  write_file name content w = (w', Raise m) ->
  w' = w /\ forall content', write_file name content' w = (w, Raise m).
Proof.
  unfold write_file. destruct (negb (truthy name)); [by intros [= <- <-] |].
  destruct (resolve (cwd w) name) as [|x l]; [by intros [= <- <-] |].
  destruct (lookup_node w (removelast (x :: l))) as [[|?]|];
    try (by intros [= <- <-]).
  destruct (fs w !! (x :: l)) as [[|?]|]; try (by intros [= <- <-]);
    destruct (fault w (x :: l)); try discriminate; by intros [= <- <-].
Qed.

(** The stages of a URL that is saved. *)
Lemma save_one_saved base url w w' url0 path title :
  save_one base url w = Some (w', Saved url0 path title) ->
  exists pg p w1,
    url0 = url
    /\ net w url = Fetched pg
    /\ Url.urlparse url = Ok p
    /\ makedirs (file_dir_of base p) w = (w1, Ok tt)
    /\ unique_path w1 (file_dir_of base p) (filename_of (path_parts_of p)) = Some path
    /\ title = title_of pg (filename_of (path_parts_of p))
    /\ write_file path (full_content_of pg url p (clock w1 (ticks w1))) (tick w1)
       = (w', Ok tt).
Proof.
  unfold save_one. destruct (net w url) as [m|m|pg]; try discriminate.
  destruct (Url.urlparse url) as [p|m]; [| discriminate].
  destruct (makedirs (file_dir_of base p) w) as [w1 [[]|m]] eqn:Em; [| discriminate].
  destruct (unique_path w1 _ _) as [filepath|] eqn:Eu; [| discriminate].
  cbn [now].
  destruct (write_file filepath _ (tick w1)) as [w3 [[]|m]] eqn:Ew; [| discriminate].
  intros [= <- <- <- <-]. by exists pg, p, w1.
Qed.

(** Every URL gets its outcome: the body of the loop ends, with a
    dictionary for the URL it was given. *)
Lemma save_one_total base url w :
  exists w' o, save_one base url w = Some (w', o) /\ outcome_url o = url.
Proof.
  unfold save_one. destruct (net w url) as [m|m|pg]; try (by eexists _, _).
  destruct (Url.urlparse url) as [p|m]; [| by eexists _, _].
  destruct (makedirs (file_dir_of base p) w) as [w1 [[]|m]]; [| by eexists _, _].
  destruct (unique_path_total w1 (file_dir_of base p) _ (filename_of_slash_free p))
    as [filepath ->].
  cbn [now]. destruct (write_file filepath _ (tick w1)) as [w3 [[]|m]];
    by eexists _, _.
Qed.


(** Only the file system and the clock move. *)
Lemma save_one_frame base url w w' o :
  save_one base url w = Some (w', o) ->
  net w' = net w /\ cwd w' = cwd w /\ fault w' = fault w
  /\ environ w' = environ w /\ mcp_config w' = mcp_config w.
Proof.
  unfold save_one. destruct (net w url) as [m|m|pg]; try (by intros [= <- <-]).
  destruct (Url.urlparse url) as [p|m]; [| by intros [= <- <-]].
  pose proof (makedirs_frame (file_dir_of base p) w) as Hf.
  destruct (makedirs (file_dir_of base p) w) as [w1 [[]|m]]; simpl in Hf;
    [| intros [= <- <-]; by rewrite Hf].
  destruct (unique_path w1 _ _) as [filepath|]; [| discriminate].
  cbn [now].
  pose proof (write_file_frame filepath
    (full_content_of pg url p (clock w1 (ticks w1))) (tick w1)) as Hw.
  destruct (write_file filepath _ (tick w1)) as [w3 [[]|m]]; simpl in Hw;
    intros [= <- <-]; rewrite Hw, Hf; done.
Qed.

(** A fetch or a parse that raises leaves the world as it was. *)
Lemma save_one_fetch_failure base url w m :
  net w url = FetchError m \/ net w url = ParseError m ->
  save_one base url w = Some (w, Failed url m).
Proof. unfold save_one. by intros [-> | ->]. Qed.

End SaveOneFacts.

(** ** The loop over the URLs *)

Section BatchLoopFacts.

Implicit Types (w : World) (o : Outcome) (base url : string)
  (urls : list string) (results : list Outcome).

(** [results] only ever grows at its end. *)
Lemma batch_loop_acc base urls w acc :
  batch_loop base urls w acc
  = match batch_loop base urls w [] with
    | Some (w', rs) => Some (w', acc ++ rs)
    | None => None
    end.
Proof.
  revert w acc. induction urls as [|u urls IH]; intros w acc; cbn [batch_loop].
  - by rewrite app_nil_r.
  - destruct (save_one base u w) as [[w1 o]|]; [| done].
    rewrite (IH w1 (acc ++ [o])), (IH w1 ([] ++ [o])).
    destruct (batch_loop base urls w1 []) as [[w' rs]|]; [| done].
    by rewrite <- app_assoc.
Qed.

Lemma batch_loop_cons base u urls w :
  batch_loop base (u :: urls) w []
  = match save_one base u w with
    | Some (w1, o) =>
        match batch_loop base urls w1 [] with
        | Some (w', rs) => Some (w', o :: rs)
        | None => None
        end
    | None => None
    end.
Proof.
  cbn [batch_loop]. destruct (save_one base u w) as [[w1 o]|]; [| done].
  by rewrite batch_loop_acc.
Qed.


(** The loop ends, with one outcome per URL, in the order of the URLs. *)
Lemma batch_loop_total base urls w :
  exists w' results,
    batch_loop base urls w [] = Some (w', results)
    /\ map outcome_url results = urls.
Proof.
  revert w. induction urls as [|u urls IH]; intros w.
  - by exists w, [].
  - rewrite batch_loop_cons.
    destruct (save_one_total base u w) as (w1 & o & -> & Ho).
    destruct (IH w1) as (w' & rs & -> & Hrs).
    exists w', (o :: rs). split; [done |]. simpl. by rewrite Ho, Hrs.
Qed.


End BatchLoopFacts.


(** ** The result of a batch *)

Lemma count_cons f o results :
  count f (o :: results) = (if f o then 1 else 0) + count f results.
Proof. unfold count. cbn [List.filter]. by destruct (f o). Qed.

Lemma status_saved_or_error results :
  count is_saved results + count is_error results = List.length results.
Proof.
  induction results as [|o rs IH]; [done |].
  rewrite !count_cons. cbn [List.length].
  assert (is_saved o = negb (is_error o)) as -> by (by destruct o).
  destruct (is_error o); cbn [negb]; lia.
Qed.

(** C5, as the code has it.  For an argument of one of the two accepted
    shapes, and once the output root is settled (a non-empty [path], or a
    [get_filepath] that does not raise), [batch_save] returns the result
    whose top-level status is [success], whose [processed] is the list of
    outcomes of the loop, whose [total_saved] and [total_errors] count the
    outcomes with status [saved] and [error] (together, all of them); the
    result is the same whether building or writing the index raises or
    not. *)
Theorem batch_save_reports_success urls l path w0 w base :
  shape_of urls = Urls l ->
  resolve_base path w0 = (w, Ok base) ->
  exists w' results r,
    batch_loop base l w [] = Some (w', results)
    /\ batch_save urls path w0 = Some ((write_index base results w').1, Ok (Success r))
    /\ top_status (Success r) = "success"
    /\ processed r = results
    /\ base_path r = base
    /\ total_saved r
       = List.length (List.filter (fun o => String.eqb (status o) "saved") results)
    /\ total_errors r
       = List.length (List.filter (fun o => String.eqb (status o) "error") results)
    /\ total_saved r + total_errors r = List.length l
    /\ forall m, (write_index base results w').2 = Raise m ->
                 exists w'', batch_save urls path w0 = Some (w'', Ok (Success r)).
Proof.
  intros Hshape Hbase.
  destruct (batch_loop_total base l w) as (w' & results & Hloop & Hurls).
  exists w', results. eexists. split; [exact Hloop |].
  assert (Hrun : batch_save urls path w0
                 = Some ((write_index base results w').1,
                         Ok (Success {| processed := results;
                                        base_path := base;
                                        total_saved := count is_saved results;
                                        total_errors := count is_error results |}))).
  { unfold batch_save. by rewrite Hshape, Hbase, Hloop. }
  split; [exact Hrun |]. split_and!; try reflexivity.
  - cbn [total_saved total_errors]. rewrite status_saved_or_error.
    by rewrite <- Hurls, length_map.
  - intros m _. by eexists.
Qed.

(** C5 as stated fails: with [OUTPUT_PATH] naming a regular file and no
    [path] argument, [get_filepath] raises in [os.makedirs] and the
    exception leaves [batch_save], for the well-formed input [[]]. *)
Lemma batch_save_may_raise :
  ~ (forall urls l path w,
       shape_of urls = Urls l ->
       exists w' r, batch_save urls path w = Some (w', Ok r)
                    /\ top_status r = "success").
Proof.
  intros H.
  destruct (H (PList []) [] None blocked_world eq_refl) as (w' & r & Hrun & _).
  vm_compute in Hrun. discriminate Hrun.
Qed.

(** ** The title of a saved page *)

(** C10.  On a page that is fetched, the body of the loop ends; if the page
    is saved, the title in the outcome and in the metadata block of the
    file is the [.string] of the [<title>] element when there is such an
    element, even when that is [None] (an empty [<title>]): the outcome
    then carries [None] and the file begins with [title: None].  The stem
    is the title only when the page has no [<title>] element. *)
Theorem empty_title_is_kept base url w pg :
  net w url = Fetched pg ->
  exists w' o,
    save_one base url w = Some (w', o)
    /\ forall url0 path title,
         o = Saved url0 path title ->
         exists p date,
           Url.urlparse url = Ok p
           /\ fs w' !! resolve (cwd w) path
              = Some (File (metadata_of title url (Url.netloc p) (description_of pg) date
                            +++ page_markdown pg))
           /\ (forall s, page_title pg = Some s -> title = s)
           /\ (page_title pg = Some None ->
               title = None
               /\ exists rest, metadata_of title url (Url.netloc p) (description_of pg) date
                               = "---
title: None
" +++ rest)
           /\ (page_title pg = None ->
               title = Some (filename_of (path_parts_of p))).
Proof.
  intros Hnet. destruct (save_one_total base url w) as (w' & o & Hrun & _).
  exists w', o. split; [exact Hrun |]. intros url0 path title ->.
  apply save_one_saved in Hrun
    as (pg' & p & w1 & _ & Hnet' & Hp & Hmk & _ & Ht & Hw).
  rewrite Hnet in Hnet'. injection Hnet' as <-.
  exists p, (clock w1 (ticks w1)). split; [exact Hp |].
  apply write_file_ok in Hw as [-> _].
  pose proof (makedirs_frame (file_dir_of base p) w) as Hf. rewrite Hmk in Hf.
  simpl in Hf.
  split_and!.
  - rewrite set_fs_fs. cbn [cwd tick]. rewrite Hf. cbn [cwd set_fs].
    rewrite lookup_insert_eq, Ht. reflexivity.
  - intros s Hs. rewrite Ht. unfold title_of. by rewrite Hs.
  - intros Hs. rewrite Ht. unfold title_of. rewrite Hs.
    split; [reflexivity |]. eexists. reflexivity.
  - intros Hs. rewrite Ht. unfold title_of. by rewrite Hs.
Qed.

(** ** Names that are not taken *)

Section CandidateFacts.

Variables (d f : string).
Hypothesis Hf : slash_free f.

(** Creating the directory does not create a candidate. *)
Lemma makedirs_candidate_exists j w :
  path_exists (makedirs d w).1 (candidate d f j) = path_exists w (candidate d f j).
Proof using Hf.
  apply eq_true_iff_eq. rewrite !path_exists_candidate by done.
  assert (cwd (makedirs d w).1 = cwd w) as -> by (by rewrite makedirs_frame).
  unfold makedirs. destruct (truthy d); [| done].
  set (key := resolve (cwd w) d ++ [candidate_name f j]). cbn [fst]. split.
  - intros Hs. destruct (fs w !! key) eqn:E; [by eexists |]. exfalso.
    destruct (mkdir_chain_new _ _ _ _ _ E Hs) as (_ & r1 & r2 & Hr & _ & Hk).
    cbn [List.app] in Hk. subst key. rewrite Hr in Hk.
    apply (f_equal List.length) in Hk. rewrite !length_app in Hk.
    cbn [List.length] in Hk. lia.
  - intros [n Hn]. exists n. by apply mkdir_chain_mono.
Qed.

(** Writing a candidate makes that candidate exist, and no other. *)
Lemma write_candidate_exists k j content w w' :
  write_file (candidate d f k) content w = (w', Ok tt) ->
  path_exists w' (candidate d f j)
  = path_exists w (candidate d f j) || Nat.eqb j k.
Proof using Hf.
  intros Hw. apply write_file_ok in Hw as [-> _].
  apply eq_true_iff_eq. rewrite orb_true_iff, !path_exists_candidate by done.
  cbn [cwd set_fs fs]. rewrite (resolve_candidate _ _ _ k) by done.
  destruct (Nat.eqb_spec j k) as [->|Hne].
  - rewrite lookup_insert_eq. split; [by right | by eexists].
  - rewrite lookup_insert_ne.
    + split; [by left | by intros [?|?]].
    + intros E. apply app_inv_head in E. injection E as E.
      by apply candidate_name_inj in E.
Qed.

End CandidateFacts.

Lemma derive_path_Ok base url d f :
  derive_path base url = Ok (d, f) ->
  exists p, Url.urlparse url = Ok p
            /\ d = file_dir_of base p /\ f = filename_of (path_parts_of p)
            /\ slash_free f.
Proof.
  unfold derive_path. destruct (Url.urlparse url) as [p|m]; [| discriminate].
  intros [= <- <-]. exists p. split_and!; try done. apply filename_of_slash_free.
Qed.

Lemma path_exists_tick w p : path_exists (tick w) p = path_exists w p.
Proof. reflexivity. Qed.

(** What saving one URL does to the candidates of its own directory and
    stem: the first one that does not exist is written. *)
Lemma save_one_candidates base u w w' u0 path t d f :
  derive_path base u = Ok (d, f) ->
  save_one base u w = Some (w', Saved u0 path t) ->
  exists k, path = candidate d f k
            /\ path_exists w (candidate d f k) = false
            /\ (forall j, j < k -> path_exists w (candidate d f j) = true)
            /\ forall j, path_exists w' (candidate d f j)
                         = path_exists w (candidate d f j) || Nat.eqb j k.
Proof.
  intros Hd Hrun.
  apply derive_path_Ok in Hd as (p & Hp & -> & -> & Hf).
  apply save_one_saved in Hrun as (pg & p' & w1 & _ & _ & Hp' & Hmk & Hu & _ & Hw).
  rewrite Hp in Hp'. injection Hp' as <-.
  apply unique_path_spec in Hu as (k & -> & Hno & Hall).
  assert (Hw1 : w1 = (makedirs (file_dir_of base p) w).1) by (by rewrite Hmk).
  exists k. split_and!.
  - reflexivity.
  - by rewrite <- (makedirs_candidate_exists _ _ Hf), <- Hw1.
  - intros j Hj. rewrite <- (makedirs_candidate_exists _ _ Hf), <- Hw1. by apply Hall.
  - intros j. rewrite (write_candidate_exists _ _ Hf _ _ _ _ _ Hw), path_exists_tick.
    by rewrite Hw1, (makedirs_candidate_exists _ _ Hf).
Qed.

Lemma path_exists_false_lookup w p :
  path_exists w p = false -> truthy p = true ->
  fs w !! resolve (cwd w) p = None.
Proof.
  unfold path_exists, lookup_node. intros H Ht. rewrite Ht in H. cbn [andb] in H.
  destruct (resolve (cwd w) p) as [|x l]; [discriminate H |].
  by destruct (fs w !! (x :: l)).
Qed.

(** Processing a URL, whatever its outcome, leaves every entry that was in
    the file system as it was. *)
Lemma save_one_preserves base url w w' o key n :
  save_one base url w = Some (w', o) ->
  fs w !! key = Some n -> fs w' !! key = Some n.
Proof.
  unfold save_one. intros Hrun Hkey.
  destruct (net w url) as [m|m|pg]; try (by injection Hrun as <- _).
  destruct (Url.urlparse url) as [p|m]; [| by injection Hrun as <- _].
  pose proof (makedirs_mono (file_dir_of base p) w key n Hkey) as Hm.
  pose proof (makedirs_frame (file_dir_of base p) w) as Hfr.
  destruct (makedirs (file_dir_of base p) w) as [w1 [[]|m]]; cbn [fst] in Hm, Hfr;
    [| by injection Hrun as <- _].
  destruct (unique_path w1 _ _) as [filepath|] eqn:Eu; [| discriminate Hrun].
  apply unique_path_spec in Eu as (k & -> & Hno & _).
  cbn [now] in Hrun.
  destruct (write_file _ _ (tick w1)) as [w3 [[]|m]] eqn:Ew;
    injection Hrun as <- _.
  - apply write_file_ok in Ew as [-> _]. cbn [fs set_fs cwd tick].
    rewrite lookup_insert_ne; [done |].
    intros <-. apply path_exists_false_lookup in Hno.
    + by rewrite Hno in Hm.
    + rewrite candidate_join. apply join_single_truthy.
      apply (candidate_name_normal _ k (filename_of_slash_free p)).
  - by apply write_file_raise in Ew as [-> _].
Qed.

Lemma batch_loop_preserves base urls w w' results key n :
  batch_loop base urls w [] = Some (w', results) ->
  fs w !! key = Some n -> fs w' !! key = Some n.
Proof.
  revert w results. induction urls as [|u urls IH]; intros w results.
  - by intros [= <- _].
  - rewrite batch_loop_cons.
    destruct (save_one base u w) as [[w1 o]|] eqn:E; [| done].
    destruct (batch_loop base urls w1 []) as [[w2 rs]|] eqn:E2; [| done].
    intros [= <- _] Hkey. eapply IH; [exact E2 |]. by eapply save_one_preserves.
Qed.


(** ** The index *)

Section GroupingFacts.

Implicit Types (l D : list string) (x y k : string).

Lemma first_seen_elem x l : x ∈ first_seen l <-> x ∈ l.
Proof.
  induction l as [|y l IH]; cbn [first_seen]; [done |].
  rewrite !elem_of_cons, list_elem_of_In, filter_In, <- list_elem_of_In, IH.
  destruct (String.eqb_spec y x) as [->|Hne]; cbn [negb].
  - split; [intros [?|[? ?]]; [by left | done] | by left].
  - split; [intros [?|[? _]]; [by left | by right] | ].
    intros [->|?]; [done | by right].
Qed.

Lemma first_seen_NoDup l : NoDup (first_seen l).
Proof.
  induction l as [|y l IH]; cbn [first_seen]; [constructor |].
  constructor.
  - rewrite list_elem_of_In, filter_In. intros [_ H].
    by rewrite String.eqb_refl in H.
  - apply NoDup_ListNoDup, List.NoDup_filter, NoDup_ListNoDup, IH.
Qed.

Lemma first_seen_snoc l x :
  first_seen (l ++ [x])
  = if bool_decide (x ∈ l) then first_seen l else first_seen l ++ [x].
Proof.
  induction l as [|y l IH]; [done |].
  rewrite <- app_comm_cons. cbn [first_seen]. rewrite IH.
  destruct (decide (x = y)) as [->|Hne].
  - rewrite (bool_decide_eq_true_2 (y ∈ y :: l)) by left.
    case_bool_decide; [done |].
    rewrite List.filter_app. cbn [List.filter]. rewrite String.eqb_refl.
    cbn [negb]. by rewrite app_nil_r.
  - case_bool_decide as Hin.
    + rewrite bool_decide_eq_true_2; [done | by right].
    + rewrite bool_decide_eq_false_2 by (intros [?|?]%elem_of_cons; done).
      rewrite List.filter_app. cbn [List.filter].
      destruct (String.eqb_spec y x) as [->|_]; [done |]. reflexivity.
Qed.

Context {V : Type}.
Implicit Types (F : string -> list V) (v : V).

Lemma dd_append_present k v F D :
  NoDup D -> k ∈ D ->
  dd_append k v (map (fun d => (d, F d)) D)
  = map (fun d => (d, F d ++ if String.eqb d k then [v] else [])) D.
Proof.
  induction 1 as [|y D Hy Hnd IH]; intros Hin; [by apply elem_of_nil in Hin |].
  cbn [map dd_append].
  destruct (String.eqb_spec y k) as [->|Hne].
  - f_equal. apply map_ext_in. intros d Hd%list_elem_of_In.
    destruct (String.eqb_spec d k) as [->|_]; [done |]. by rewrite app_nil_r.
  - rewrite app_nil_r. f_equal. apply IH.
    by apply elem_of_cons in Hin as [->|?].
Qed.

Lemma dd_append_absent k v F D :
  k ∉ D ->
  dd_append k v (map (fun d => (d, F d)) D)
  = map (fun d => (d, F d ++ if String.eqb d k then [v] else [])) D ++ [(k, [v])].
Proof.
  induction D as [|y D IH]; intros Hin; [done |].
  cbn [map dd_append]. apply not_elem_of_cons in Hin as [Hne Hin].
  destruct (String.eqb_spec y k) as [->|_]; [done |].
  rewrite app_nil_r, IH by done. reflexivity.
Qed.

End GroupingFacts.

Section IndexFacts.

Implicit Types (o r : Outcome) (results saved : list Outcome).

Lemma filter_none {A} (f : A -> bool) (l : list A) :
  (forall x, x ∈ l -> f x = false) -> List.filter f l = [].
Proof.
  induction l as [|x l IH]; intros H; [done |].
  cbn [List.filter]. rewrite (H x) by left. apply IH. intros y Hy. apply H. by right.
Qed.

Lemma groups_of_snoc saved r :
  groups_of (saved ++ [r]) = dd_append (domain_of r) r (groups_of saved).
Proof.
  unfold groups_of. rewrite map_app. cbn [map]. rewrite first_seen_snoc.
  assert (Hext : forall d,
    (d, List.filter (fun o => String.eqb (domain_of o) d) (saved ++ [r]))
    = (d, List.filter (fun o => String.eqb (domain_of o) d) saved
          ++ if String.eqb d (domain_of r) then [r] else [])).
  { intros d. rewrite List.filter_app. cbn [List.filter].
    by rewrite (String.eqb_sym d). }
  case_bool_decide as Hin.
  - rewrite dd_append_present;
      [| apply first_seen_NoDup | by apply first_seen_elem].
    apply map_ext. exact Hext.
  - rewrite dd_append_absent by (by rewrite first_seen_elem).
    rewrite map_app. cbn [map]. f_equal; [apply map_ext; exact Hext |].
    rewrite List.filter_app. cbn [List.filter]. rewrite String.eqb_refl.
    rewrite filter_none; [done |].
    intros o Ho. destruct (String.eqb_spec (domain_of o) (domain_of r)) as [E|]; [| done].
    destruct Hin. rewrite <- E. apply list_elem_of_In, in_map.
    by apply list_elem_of_In.
Qed.

Lemma group_fold results : fold_left group_step results [] = index_groups results.
Proof.
  induction results as [|r results IH] using rev_ind; [done |].
  rewrite fold_left_app. cbn [fold_left]. rewrite IH.
  unfold index_groups, group_step. rewrite List.filter_app. cbn [List.filter].
  destruct (is_saved r); [by rewrite groups_of_snoc | by rewrite app_nil_r].
Qed.

Lemma group_results_fold results acc :
  Forall indexable results ->
  group_results results acc = Ok (fold_left group_step results acc).
Proof.
  intros H. revert acc. induction H as [|r results Hr _ IH]; intros acc; [done |].
  cbn [group_results fold_left]. unfold group_step at 2, domain_of.
  destruct (is_saved r) eqn:Es; [| apply IH].
  destruct (Hr Es) as [[p Hp] _]. rewrite Hp. apply IH.
Qed.

Lemma relpath_Ok cwd path base :
  truthy path = true -> exists rel, relpath cwd path base = Ok rel.
Proof.
  intros H. unfold relpath. rewrite H. cbn [negb].
  destruct (_ ++ _); by eexists.
Qed.

Lemma render_entries_text cwd base entries acc :
  Forall (fun o => truthy (outcome_path o) = true) entries ->
  render_entries cwd base entries acc
  = Ok (acc +++ concat_str (map (index_entry cwd base) entries)).
Proof.
  intros H. revert acc. induction H as [|o entries Ho _ IH]; intros acc.
  - cbn [render_entries map concat_str fold_right]. by rewrite append_nil_r.
  - cbn [render_entries map concat_str fold_right].
    destruct (relpath_Ok cwd (outcome_path o) base Ho) as [rel Hrel].
    rewrite Hrel, IH. unfold index_entry, link_target. rewrite Hrel.
    f_equal. by rewrite !append_assoc.
Qed.

Lemma render_domains_text cwd base groups acc :
  Forall (fun g => Forall (fun o => truthy (outcome_path o) = true) (snd g)) groups ->
  render_domains cwd base groups acc
  = Ok (acc +++ concat_str (map (index_section cwd base) groups)).
Proof.
  intros H. revert acc. induction H as [|[d es] groups Hg _ IH]; intros acc.
  - cbn [render_domains map concat_str fold_right]. by rewrite append_nil_r.
  - cbn [render_domains map concat_str fold_right].
    rewrite (render_entries_text _ _ _ _ Hg), IH. unfold index_section. cbn [fst snd].
    f_equal. by rewrite !append_assoc.
Qed.

Lemma index_groups_paths results :
  Forall indexable results ->
  Forall (fun g => Forall (fun o => truthy (outcome_path o) = true) (snd g))
         (index_groups results).
Proof.
  intros H. unfold index_groups, groups_of. apply Forall_forall.
  intros g Hg. apply list_elem_of_In, in_map_iff in Hg as (d & <- & _).
  cbn [snd]. apply Forall_forall. intros o Ho.
  apply list_elem_of_In, filter_In in Ho as [Ho _].
  apply filter_In in Ho as [Ho Hs].
  rewrite Forall_forall in H. apply list_elem_of_In in Ho.
  by destruct (H o Ho Hs).
Qed.

End IndexFacts.

(** C8.  For outcomes whose saved entries have a URL that parses and a
    path, the text built for the index is the title line followed by one
    section per domain; the sections are those of the outcomes with status
    [saved] only, grouped by the domain of their URL, the domains in the
    order they are first seen and the outcomes of a domain in their
    original order; a section is a heading with the domain and one entry
    per outcome, whose text is the title and whose target is the path
    relative to the output root. *)
Theorem build_index_groups_by_domain cwd base results :
  Forall indexable results ->
  build_index cwd base results = Ok (index_text cwd base results)
  /\ index_groups results
     = map (fun d => (d, List.filter (fun o => String.eqb (domain_of o) d)
                           (List.filter is_saved results)))
           (first_seen (map domain_of (List.filter is_saved results)))
  /\ NoDup (map fst (index_groups results))
  /\ (forall g, index_section cwd base g
                = "
## " +++ fst g +++ "

" +++ concat_str (map (index_entry cwd base) (snd g)))
  /\ (forall o rel, relpath cwd (outcome_path o) base = Ok rel ->
                    index_entry cwd base o
                    = "- [" +++ fmt (outcome_title o) +++ "](" +++ rel +++ ")
").
Proof.
  intros H. split_and!.
  - unfold build_index. rewrite (group_results_fold _ _ H), group_fold.
    rewrite (render_domains_text _ _ _ _ (index_groups_paths _ H)).
    reflexivity.
  - reflexivity.
  - unfold index_groups, groups_of. rewrite map_map. cbn [fst].
    rewrite map_id. apply first_seen_NoDup.
  - reflexivity.
  - intros o rel Hrel. unfold index_entry, link_target. by rewrite Hrel.
Qed.



(** * The statements on the sample worlds *)


(** One URL whose fetch fails and one that is saved: two outcomes, in the
    order of the input, the first an error with its message, the second
    saved at a path that exists afterwards. *)
Example batch_save_failure_then_success :
  exists w'',
    batch_save (PList ["https://down.example/x"; "https://example.com/a/b/c.html"])
      (Some "out") sample_world
    = Some (w'', Ok (Success
        {| processed := [Failed "https://down.example/x" "connection refused";
                         Saved "https://example.com/a/b/c.html"
                               "out/example.com/a/b/c.md" (Some "Hello")];
           base_path := "out"; total_saved := 1; total_errors := 1 |}))
    /\ path_exists w'' "out/example.com/a/b/c.md" = true
    /\ path_exists w'' "out/index.md" = true.
Proof.
  exists (match batch_save (PList ["https://down.example/x";
                                   "https://example.com/a/b/c.html"])
                  (Some "out") sample_world with
          | Some (w'', _) => w''
          | None => sample_world
          end).
  split_and!; vm_compute; reflexivity.
Qed.


Lemma stem_removes_every_occurrence_witness :
  exists p dir r1 r2,
    Url.urlparse "https://example.com/docs/a.html.bak" = Ok p
    /\ derive_path "out" "https://example.com/docs/a.html.bak"
       = Ok (dir, if truthy r2 then r2 else "index")
    /\ Removed ".html" "a.html.bak" r1
    /\ Removed ".php" r1 r2.
Proof.
  set (p := {| Url.scheme := "https"; Url.netloc := "example.com";
               Url.path := "/docs/a.html.bak" |}).
  destruct (stem_removes_every_occurrence "out"
              "https://example.com/docs/a.html.bak" p eq_refl)
    as (dir & r1 & r2 & Hd & H1 & H2 & _).
  exists p, dir, r1, r2. split_and!; [reflexivity | exact Hd | exact H1 | exact H2].
Defined.


(** The index cannot be written ([out/index.md] is a directory): the batch
    still reports success, with the outcome of the URL. *)
Lemma batch_save_reports_success_witness :
  exists w' results r m,
    batch_loop "out" ["https://example.com/a"] index_blocked_world []
    = Some (w', results)
    /\ (write_index "out" results w').2 = Raise m
    /\ batch_save (PList ["https://example.com/a"]) (Some "out") index_blocked_world
       = Some ((write_index "out" results w').1, Ok (Success r))
    /\ top_status (Success r) = "success"
    /\ processed r = results
    /\ total_saved r + total_errors r = 1.
Proof.
  destruct (batch_save_reports_success (PList ["https://example.com/a"])
              ["https://example.com/a"] (Some "out")
              index_blocked_world index_blocked_world "out" eq_refl eq_refl)
    as (w' & results & r & Hloop & Hrun & Hst & Hp & _ & _ & _ & Hn & _).
  exists w', results, r, "[Errno 21] Is a directory: 'out/index.md'".
  split_and!; try done.
  vm_compute in Hloop. injection Hloop as <- <-. vm_compute. reflexivity.
Defined.

Lemma map_links_mapping_witness :
  exists links,
    map_links "https://example.com/" sample_world = LinksSuccess links
    /\ dict_keys links = ["https://example.com/about"; "https://example.com/blank"]
    /\ dict_get "https://example.com/about" links = Some "About Us"
    /\ dict_get "https://example.com/blank" links = Some "https://example.com/blank"
    /\ NoDup (dict_keys links).
Proof.
  destruct (map_links_mapping "https://example.com/" sample_world sample_page eq_refl)
    as (links & Hrun & Hnd & _).
  exists links. split; [exact Hrun |].
  vm_compute in Hrun. injection Hrun as <-.
  split_and!; [reflexivity | reflexivity | reflexivity | exact Hnd].
Defined.

Lemma build_index_groups_by_domain_witness :
  build_index ["home"; "crawl"] "out"
    [Saved "https://a.com/x" "out/a.com/x.md" (Some "X");
     Failed "https://down.example/x" "connection refused";
     Saved "https://b.com/y" "out/b.com/y.md" None;
     Saved "https://a.com/z" "out/a.com/z.md" (Some "Z")]
  = Ok "# Crawled Content Index


## a.com

- [X](a.com/x.md)
- [Z](a.com/z.md)

## b.com

- [None](b.com/y.md)
".
Proof.
  refine (proj1 (build_index_groups_by_domain ["home"; "crawl"] "out"
    [Saved "https://a.com/x" "out/a.com/x.md" (Some "X");
     Failed "https://down.example/x" "connection refused";
     Saved "https://b.com/y" "out/b.com/y.md" None;
     Saved "https://a.com/z" "out/a.com/z.md" (Some "Z")] _)).
  repeat (constructor;
          [intros Hs;
           first [discriminate Hs
                 | split; [eexists; vm_compute; reflexivity | reflexivity]] |]).
  constructor.
Defined.

Lemma get_filepath_twice_witness :
  get_filepath sample_world = ((get_filepath sample_world).1, Ok "/home/crawl/output")
  /\ get_filepath (get_filepath sample_world).1
     = ((get_filepath sample_world).1, Ok "/home/crawl/output").
Proof.
  assert (H : get_filepath sample_world
              = ((get_filepath sample_world).1, Ok "/home/crawl/output"))
    by (vm_compute; reflexivity).
  split; [exact H |].
  exact (proj1 (get_filepath_twice sample_world (get_filepath sample_world).1
                  "/home/crawl/output" H)).
Defined.

Lemma empty_title_is_kept_witness :
  net sample_world "https://example.com/empty" = Fetched empty_title_page
  /\ exists w',
       save_one "out" "https://example.com/empty" sample_world
       = Some (w', Saved "https://example.com/empty" "out/example.com/empty.md" None)
       /\ fs w' !! ["home"; "crawl"; "out"; "example.com"; "empty.md"]
          = Some (File "---
title: None
url: https://example.com/empty
domain: example.com
description: 
date_saved: 2024-01-01T00:00:00
---

text").
Proof.
  split; [reflexivity |].
  destruct (empty_title_is_kept "out" "https://example.com/empty" sample_world
              empty_title_page eq_refl) as (w' & o & Hrun & _).
  exists w'. vm_compute in Hrun. injection Hrun as <- <-.
  split; vm_compute; reflexivity.
Defined.

(** * Further properties of the code *)

(** ** The order of the links, and [map_links] into [batch_save] *)

Lemma collect_links_keys anchors :
  dict_keys (collect_links anchors)
  = first_seen (List.filter eligible (map fst anchors)).
Proof.
  rewrite collect_links_fold.
  induction anchors as [|a anchors IH] using rev_ind; [done |].
  rewrite fold_left_app, map_app, List.filter_app. cbn [fold_left map List.filter].
  unfold collect_step at 1. destruct (eligible (fst a)).
  - rewrite dict_keys_set, first_seen_snoc, IH.
    assert (Hiff : fst a ∈ first_seen (List.filter eligible (map fst anchors))
                   <-> fst a ∈ List.filter eligible (map fst anchors))
      by apply first_seen_elem.
    do 2 case_bool_decide; tauto.
  - by rewrite app_nil_r.
Qed.

Lemma first_seen_drop_seen h A B :
  h ∈ A -> first_seen (A ++ h :: B) = first_seen (A ++ B).
Proof.
  intros Hin. induction B as [|b B IH] using rev_ind.
  - rewrite app_nil_r, first_seen_snoc. by rewrite bool_decide_eq_true_2.
  - rewrite app_comm_cons, !app_assoc, !first_seen_snoc, IH.
    assert (Hiff : b ∈ A ++ h :: B <-> b ∈ A ++ B).
    { rewrite !elem_of_app, elem_of_cons. split; [| tauto].
      intros [?|[->|?]]; tauto. }
    do 2 case_bool_decide; tauto.
Qed.

(** X1.  The keys of the mapping [map_links] returns stand in the order in
    which the kept hrefs first appear in the page: a later anchor with an
    href already seen changes the text, not the position of the key. *)
Theorem map_links_key_order url w pg :
  net w url = Fetched pg ->
  exists links,
    map_links url w = LinksSuccess links
    /\ dict_keys links = kept_hrefs pg
    /\ forall before h t after,
         page_anchors pg = before ++ (h, t) :: after ->
         h ∈ map fst before -> eligible h = true ->
         dict_keys links = dict_keys (collect_links (before ++ after)).
Proof.
  intros Hnet. exists (collect_links (page_anchors pg)). split_and!.
  - unfold map_links. by rewrite Hnet.
  - apply collect_links_keys.
  - intros before h t after -> Hin Hel. rewrite !collect_links_keys.
    rewrite !map_app, !List.filter_app. cbn [map List.filter fst]. rewrite Hel.
    apply first_seen_drop_seen.
    apply list_elem_of_In, filter_In. split; [by apply list_elem_of_In | done].
Qed.

(** X2.  Handing [batch_save] the dictionary [map_links] returned: when the
    page was fetched, the URLs processed are exactly the kept hrefs, in the
    order they first appear in the page; when [map_links] returned its error
    dictionary, [batch_save] returns the top-level error at once and the
    world is not touched. *)
Theorem map_links_into_batch_save url w path w' :
  batch_save (links_result_py (map_links url w)) path w'
  = match net w url with
    | Fetched pg => batch_save (PList (kept_hrefs pg)) path w'
    | _ => Some (w', Ok (TopError shape_error))
    end.
Proof.
  unfold map_links. destruct (net w url) as [m|m|pg]; try reflexivity.
  unfold batch_save, links_result_py, shape_of.
  change (dict_get "links" _) with
    (Some (PDict (map (fun kv => (fst kv, PStr (snd kv)))
                      (collect_links (page_anchors pg))))).
  cbn iota beta. unfold dict_keys at 1. rewrite map_map. cbn [fst].
  change (map (fun x => fst x) ?l) with (dict_keys l).
  by rewrite collect_links_keys.
Qed.

(** ** The output root of a batch *)

Lemma get_filepath_Ok w w1 p :
  get_filepath w = (w1, Ok p) ->
  exists path,
    truthy path = true
    /\ p = abspath (cwd w) path
    /\ makedirs path w = (w1, Ok tt).
Proof.
  intros H. destruct (get_filepath_unfold w) as (path & H1 & _). rewrite H in H1.
  pose proof (makedirs_frame path w) as Hfr.
  destruct (makedirs path w) as [w1' [[]|m]] eqn:E; [| discriminate H1].
  injection H1 as -> ->. cbn [fst] in Hfr.
  exists path. split_and!; [| by rewrite Hfr | done].
  unfold makedirs in E. by destruct (truthy path).
Qed.

Lemma abspath_truthy cwd p : truthy (abspath cwd p) = true.
Proof. unfold abspath, root_of. by destruct (_ && _). Qed.

(** X3.  For an argument of an accepted shape, leaving [path] out, or
    passing the empty string, is the same as passing the path
    [get_filepath] returns, in the world [get_filepath] leaves. *)
Theorem batch_save_default_path urls l w w1 p :
  shape_of urls = Urls l ->
  get_filepath w = (w1, Ok p) ->
  batch_save urls None w = batch_save urls (Some p) w1
  /\ batch_save urls (Some "") w = batch_save urls (Some p) w1.
Proof.
  intros Hshape Hget.
  assert (Hp : truthy p = true).
  { apply get_filepath_Ok in Hget as (path & _ & -> & _). apply abspath_truthy. }
  unfold batch_save, resolve_base. rewrite Hshape, Hp. cbn [truthy].
  by rewrite Hget.
Qed.

Section AbspathFacts.

Implicit Types (cwd st comps : list string) (p : string).

Lemma Forall_removelast_normal st :
  Forall normal_name st -> Forall normal_name (removelast st).
Proof.
  induction 1 as [|x l Hx Hl IH]; [constructor |].
  destruct l as [|y l]; [constructor |]. cbn [removelast] in *. by constructor.
Qed.

Lemma norm_step_keeps_normal st comp :
  slash_free comp -> Forall normal_name st -> Forall normal_name (norm_step st comp).
Proof.
  intros Hc Hst. unfold norm_step.
  destruct (String.eqb_spec comp ""); [done |].
  destruct (String.eqb_spec comp "."); [done |].
  destruct (String.eqb_spec comp ".."); [by apply Forall_removelast_normal |].
  apply Forall_app. split; [done |]. by repeat constructor.
Qed.

(** The components of a resolved path are names, whatever the path. *)
Lemma resolve_normal cwd p :
  Forall normal_name cwd -> Forall normal_name (resolve cwd p).
Proof.
  intros Hcwd. unfold resolve.
  assert (Hinit : Forall normal_name (if startswith "/" p then [] else cwd))
    by (destruct (startswith "/" p); [constructor | done]).
  assert (Hsplit : Forall slash_free (split "/" p))
    by (apply Forall_forall; intros x Hx; by eapply split_elems_slash_free).
  revert Hinit. generalize (if startswith "/" p then [] else cwd).
  induction Hsplit as [|c l Hc _ IH]; intros st Hst; [done |].
  cbn [fold_left]. apply IH. by apply norm_step_keeps_normal.
Qed.

Lemma fold_norm_normal comps st :
  Forall normal_name comps -> fold_left norm_step comps st = st ++ comps.
Proof.
  intros H. revert st. induction H as [|c l Hc _ IH]; intros st.
  - by rewrite app_nil_r.
  - cbn [fold_left]. rewrite norm_step_normal, IH by done. by rewrite <- app_assoc.
Qed.

Lemma str_join_cons sep c c' l :
  PyStr.join sep (c :: c' :: l) = c +++ sep +++ PyStr.join sep (c' :: l).
Proof. reflexivity. Qed.

Lemma split_join_normal comps :
  Forall normal_name comps -> comps <> [] ->
  split "/" (PyStr.join "/" comps) = comps.
Proof.
  induction 1 as [|c l Hc Hl IH]; intros Hne; [done |].
  destruct l as [|c' l'].
  - apply split_slash_free, Hc.
  - rewrite str_join_cons.
    change ("/" +++ PyStr.join "/" (c' :: l'))
      with (String "/" (PyStr.join "/" (c' :: l'))).
    rewrite split_app, IH by done. by rewrite (split_slash_free c) by apply Hc.
Qed.

Lemma join_no_leading_slash comps :
  Forall normal_name comps -> startswith "/" (PyStr.join "/" comps) = false.
Proof.
  intros [|c l Hc _]; [done |].
  destruct (normal_name_head _ Hc) as (a & s & -> & Ha).
  destruct l as [|c' l'].
  - cbn [PyStr.join]. by rewrite startswith_slash_cons.
  - rewrite str_join_cons. cbn [app]. by rewrite startswith_slash_cons.
Qed.

Lemma resolve_rooted root comps cwd :
  root = "/" \/ root = "//" ->
  Forall normal_name comps ->
  resolve cwd (root +++ PyStr.join "/" comps) = comps.
Proof.
  intros Hroot Hn. unfold resolve.
  assert (Hstart : startswith "/" (root +++ PyStr.join "/" comps) = true)
    by (by destruct Hroot as [-> | ->]).
  rewrite Hstart.
  assert (Hsplit : fold_left norm_step (split "/" (PyStr.join "/" comps)) [] = comps).
  { destruct comps as [|c l]; [done |].
    rewrite split_join_normal by done. by rewrite fold_norm_normal. }
  destruct Hroot as [-> | ->].
  - change ("/" +++ PyStr.join "/" comps)
      with ("" +++ String "/" (PyStr.join "/" comps)).
    rewrite split_app. exact Hsplit.
  - change ("//" +++ PyStr.join "/" comps)
      with ("" +++ String "/" ("" +++ String "/" (PyStr.join "/" comps))).
    rewrite !split_app. exact Hsplit.
Qed.

Lemma root_of_cases p : root_of p = "/" \/ root_of p = "//".
Proof. unfold root_of. destruct (_ && _); tauto. Qed.

(** Resolving the absolute form of a path gives the components it was
    rendered from. *)
Lemma resolve_abspath cwd p :
  Forall normal_name cwd -> resolve cwd (abspath cwd p) = resolve cwd p.
Proof.
  intros Hcwd. unfold abspath.
  apply resolve_rooted; [apply root_of_cases | by apply resolve_normal].
Qed.

Lemma root_of_rooted root s :
  root = "/" \/ root = "//" -> startswith "/" s = false ->
  root_of (root +++ s) = root.
Proof.
  intros Hroot Hs. destruct s as [|c s]; [by destruct Hroot as [-> | ->] |].
  rewrite startswith_slash_cons in Hs.
  assert (Hs' : Ascii.eqb "/" c = false) by (rewrite Ascii.eqb_sym; exact Hs).
  destruct Hroot as [-> | ->]; unfold root_of; cbn [app startswith];
    rewrite Hs', !Ascii.eqb_refl; reflexivity.
Qed.

(** [abspath] of an absolute form is that form. *)
Lemma abspath_idem cwd p :
  Forall normal_name cwd -> abspath cwd (abspath cwd p) = abspath cwd p.
Proof.
  intros Hcwd. unfold abspath at 1. rewrite resolve_abspath by done.
  unfold abspath. f_equal.
  apply root_of_rooted; [apply root_of_cases |].
  by apply join_no_leading_slash, resolve_normal.
Qed.

End AbspathFacts.

Lemma makedirs_target name w w1 :
  makedirs name w = (w1, Ok tt) ->
  lookup_node w1 (resolve (cwd w) name) = Some Dir.
Proof.
  unfold makedirs. destruct (truthy name); [| discriminate].
  intros H. unfold lookup_node.
  destruct (resolve (cwd w) name) as [|c r] eqn:Er; [done |].
  by apply (mkdir_chain_target name (c :: r) [] w).
Qed.

(** X4.  When the working directory is a list of proper names, the path
    [get_filepath] returns is absolute and in normal form ([abspath] leaves
    it as it is), and in the world the call leaves it exists and is a
    directory. *)
Theorem get_filepath_returns_directory w w1 p :
  Forall normal_name (cwd w) ->
  get_filepath w = (w1, Ok p) ->
  startswith "/" p = true
  /\ abspath (cwd w1) p = p
  /\ path_exists w1 p = true
  /\ lookup_node w1 (resolve (cwd w1) p) = Some Dir.
Proof.
  intros Hcwd Hget.
  apply get_filepath_Ok in Hget as (path & Hpath & -> & Hmk).
  pose proof (makedirs_frame path w) as Hfr. rewrite Hmk in Hfr. cbn [fst] in Hfr.
  assert (Hc : cwd w1 = cwd w) by (by rewrite Hfr).
  pose proof (makedirs_target _ _ _ Hmk) as Hdir.
  rewrite Hc. split_and!.
  - unfold abspath. by destruct (root_of_cases path) as [-> | ->].
  - by apply abspath_idem.
  - unfold path_exists. rewrite abspath_truthy, Hc, resolve_abspath, Hdir by done.
    reflexivity.
  - by rewrite resolve_abspath.
Qed.

Lemma makedirs_new name w key :
  fs w !! key = None ->
  is_Some (fs (makedirs name w).1 !! key) ->
  fs (makedirs name w).1 !! key = Some Dir
  /\ exists rest, resolve (cwd w) name = key ++ rest /\ key <> [].
Proof.
  unfold makedirs. destruct (truthy name); cbn [fst].
  - intros Hk Hs. destruct (mkdir_chain_new _ _ _ _ _ Hk Hs) as (Hd & r1 & r2 & Hr & Hne & ->).
    split; [done |]. by exists r2.
  - intros Hk [n Hn]. by rewrite Hk in Hn.
Qed.

Lemma get_filepath_world w : exists path, (get_filepath w).1 = (makedirs path w).1.
Proof.
  destruct (get_filepath_unfold w) as (path & -> & _). exists path.
  by destruct (makedirs path w) as [w1 [[]|m]].
Qed.

(** X5.  Whether it returns or raises, [get_filepath] leaves every entry of
    the file system as it was, and whatever it adds is a directory: it never
    creates, changes or removes a file. *)
Theorem get_filepath_only_adds_directories w key n :
  fs (get_filepath w).1 !! key = Some n ->
  (fs w !! key = Some n \/ (fs w !! key = None /\ n = Dir))
  /\ (forall key' n', fs w !! key' = Some n' ->
                      fs (get_filepath w).1 !! key' = Some n').
Proof.
  destruct (get_filepath_world w) as (path & ->). intros Hn. split.
  - destruct (fs w !! key) as [n0|] eqn:E.
    + left. apply (makedirs_mono path) in E. congruence.
    + right. split; [done |].
      destruct (makedirs_new path w key E) as [Hd _]; [by eexists |]. congruence.
  - intros key' n'. apply makedirs_mono.
Qed.

Lemma get_filepath_only_adds_directories_witness :
  fs (get_filepath sample_world).1 !! ["home"; "crawl"; "output"] = Some Dir
  /\ (fs sample_world !! ["home"; "crawl"; "output"] = Some Dir
      \/ (fs sample_world !! ["home"; "crawl"; "output"] = None /\ Dir = Dir)).
Proof.
  assert (H : fs (get_filepath sample_world).1 !! ["home"; "crawl"; "output"]
              = Some Dir) by (vm_compute; reflexivity).
  split; [exact H |].
  exact (proj1 (get_filepath_only_adds_directories sample_world _ Dir H)).
Defined.

(** X6.  [get_filepath] and [get_default_output_path] name the same
    directory, the first in absolute form, whenever [OUTPUT_PATH] is set to
    a non-empty string, and also when it is not set and no configuration
    gives another default. *)
Theorem get_filepath_agrees_with_default w w1 p :
  get_filepath w = (w1, Ok p) ->
  environ w !! "OUTPUT_PATH" <> Some "" ->
  (is_Some (environ w !! "OUTPUT_PATH")
   \/ mcp_config w = None
   \/ exists c, mcp_config w = Some c
                /\ default "./output" (c !! "default_output_path") = "./output") ->
  p = abspath (cwd w) (get_default_output_path w).
Proof.
  unfold get_filepath, get_default_output_path. intros Hget Hne Hcfg.
  destruct (environ w !! "OUTPUT_PATH") as [v|] eqn:Ev.
  - destruct v as [|c v]; [done |]. cbn [truthy default] in *.
    pose proof (makedirs_frame (String c v) w) as Hfr.
    destruct (makedirs (String c v) w) as [w1' [[]|m]]; [| discriminate Hget].
    injection Hget as <- <-. cbn [fst] in Hfr. by rewrite Hfr.
  - assert (Hpath : match mcp_config w with
                    | Some config => default "./output" (config !! "default_output_path")
                    | None => "./output"
                    end = "./output").
    { destruct Hcfg as [[? ?]|[->|(c & -> & Hc)]]; done. }
    rewrite Hpath in Hget. cbn [default].
    pose proof (makedirs_frame "./output" w) as Hfr.
    destruct (makedirs "./output" w) as [w1' [[]|m]]; [| discriminate Hget].
    injection Hget as <- <-. cbn [fst] in Hfr. by rewrite Hfr.
Qed.

Lemma get_filepath_agrees_with_default_witness :
  get_default_output_path override_world = "data/out"
  /\ (get_filepath override_world).2 = Ok "/home/crawl/data/out".
Proof.
  assert (H : get_filepath override_world
              = ((get_filepath override_world).1, Ok "/home/crawl/data/out"))
    by (vm_compute; reflexivity).
  split; [reflexivity |].
  rewrite (get_filepath_agrees_with_default override_world _ _ H).
  - reflexivity.
  - vm_compute. discriminate.
  - left. vm_compute. by eexists.
Defined.

(** X7.  An [OUTPUT_PATH] set to the empty string counts as not set: where
    [get_default_output_path] then gives the empty string, [get_filepath]
    goes on to the default.  With [OUTPUT_PATH] empty or not set and no
    other default configured, the directory [get_filepath] creates and
    returns is [output] in the working directory. *)
Theorem get_filepath_default_directory w w1 p :
  get_filepath w = (w1, Ok p) ->
  environ w !! "OUTPUT_PATH" = None \/ environ w !! "OUTPUT_PATH" = Some "" ->
  (mcp_config w = None
   \/ exists c, mcp_config w = Some c
                /\ default "./output" (c !! "default_output_path") = "./output") ->
  p = "/" +++ PyStr.join "/" (cwd w ++ ["output"])
  /\ fs w1 !! (cwd w ++ ["output"]) = Some Dir
  /\ (environ w !! "OUTPUT_PATH" = Some "" -> get_default_output_path w = "").
Proof.
  intros Hget Henv Hcfg.
  assert (Hmk : makedirs "./output" w = (w1, Ok tt) /\ p = abspath (cwd w) "./output").
  { unfold get_filepath in Hget.
    assert (Hpath : match mcp_config w with
                    | Some config => default "./output" (config !! "default_output_path")
                    | None => "./output"
                    end = "./output").
    { destruct Hcfg as [->|(c & -> & Hc)]; done. }
    destruct Henv as [Hv|Hv]; rewrite Hv in Hget; cbn [truthy] in Hget;
      rewrite Hpath in Hget;
      pose proof (makedirs_frame "./output" w) as Hfr;
      destruct (makedirs "./output" w) as [w1' [[]|m]]; try discriminate Hget;
      injection Hget as <- <-; cbn [fst] in Hfr; by rewrite Hfr. }
  destruct Hmk as [Hmk ->]. split_and!.
  - reflexivity.
  - apply makedirs_target in Hmk.
    change (resolve (cwd w) "./output") with (cwd w ++ ["output"]) in Hmk.
    unfold lookup_node in Hmk.
    destruct (cwd w ++ ["output"]) as [|x l] eqn:E; [| done].
    by apply app_nil in E as [_ ?].
  - unfold get_default_output_path. by intros ->.
Qed.

Lemma get_filepath_default_directory_witness :
  (get_filepath empty_env_world).2 = Ok "/home/crawl/output"
  /\ get_default_output_path empty_env_world = "".
Proof.
  assert (H : get_filepath empty_env_world
              = ((get_filepath empty_env_world).1, Ok "/home/crawl/output"))
    by (vm_compute; reflexivity).
  destruct (get_filepath_default_directory empty_env_world _ _ H) as (_ & _ & He).
  - right. reflexivity.
  - left. reflexivity.
  - split; [by rewrite H | apply He; reflexivity].
Defined.

(** ** The files of a batch *)

Section BatchFiles.

Implicit Types (w : World) (base : string) (urls : list string)
  (results : list Outcome).

Lemma batch_loop_frame base urls w w' results :
  batch_loop base urls w [] = Some (w', results) ->
  cwd w' = cwd w /\ net w' = net w.
Proof.
  revert w results. induction urls as [|u urls IH]; intros w results.
  - by intros [= <- _].
  - rewrite batch_loop_cons.
    destruct (save_one base u w) as [[w1 o]|] eqn:E; [| done].
    destruct (batch_loop base urls w1 []) as [[w2 rs]|] eqn:E2; [| done].
    intros [= <- _]. apply save_one_frame in E as (Hn & Hc & _).
    destruct (IH _ _ E2) as [-> ->]. done.
Qed.

(** A saved URL: its page, its parse, and the file it leaves, at a path
    where nothing was. *)
Lemma save_one_file base url w w' u path t :
  save_one base url w = Some (w', Saved u path t) ->
  u = url
  /\ fs w !! resolve (cwd w) path = None
  /\ exists pg p date,
       net w url = Fetched pg /\ Url.urlparse url = Ok p
       /\ fs w' !! resolve (cwd w) path = Some (File (full_content_of pg url p date)).
Proof.
  intros Hrun.
  apply save_one_saved in Hrun as (pg & p & w1 & -> & Hnet & Hp & Hmk & Hu & _ & Hw).
  apply unique_path_spec in Hu as (k & -> & Hno & _).
  pose proof (makedirs_frame (file_dir_of base p) w) as Hfr.
  rewrite Hmk in Hfr. cbn [fst] in Hfr.
  assert (Hcwd : cwd w1 = cwd w) by (by rewrite Hfr).
  apply path_exists_false_lookup in Hno;
    [| rewrite candidate_join; apply join_single_truthy;
       apply (candidate_name_normal _ k (filename_of_slash_free p))].
  rewrite Hcwd in Hno. split_and!; [done | |].
  - destruct (fs w !! _) as [n|] eqn:E; [| done].
    pose proof (makedirs_mono (file_dir_of base p) w _ n E) as Hm.
    rewrite Hmk in Hm. cbn [fst] in Hm. by rewrite Hno in Hm.
  - exists pg, p, (clock w1 (ticks w1)). split_and!; [done | done |].
    apply write_file_ok in Hw as [-> _]. cbn [fs set_fs cwd tick].
    by rewrite Hcwd, lookup_insert_eq.
Qed.

Lemma batch_loop_files base urls w w' results u path t :
  batch_loop base urls w [] = Some (w', results) ->
  Saved u path t ∈ results ->
  fs w !! resolve (cwd w) path = None
  /\ exists pg p date,
       net w u = Fetched pg /\ Url.urlparse u = Ok p
       /\ fs w' !! resolve (cwd w) path = Some (File (full_content_of pg u p date)).
Proof.
  revert w results. induction urls as [|url urls IH]; intros w results.
  - intros [= _ <-] Hin. by apply elem_of_nil in Hin.
  - rewrite batch_loop_cons.
    destruct (save_one base url w) as [[w1 o]|] eqn:E; [| done].
    destruct (batch_loop base urls w1 []) as [[w2 rs]|] eqn:E2; [| done].
    intros [= <- <-] Hin.
    pose proof (save_one_frame _ _ _ _ _ E) as (Hn & Hc & _).
    apply elem_of_cons in Hin as [<-|Hin].
    + destruct (save_one_file _ _ _ _ _ _ _ E) as (-> & Hnone & pg & p & date & H1 & H2 & H3).
      split; [done |]. exists pg, p, date. split_and!; [done | done |].
      by eapply batch_loop_preserves.
    + destruct (IH _ _ E2 Hin) as (Hnone & pg & p & date & H1 & H2 & H3).
      rewrite Hc in Hnone, H3. rewrite Hn in H1. split.
      * destruct (fs w !! _) as [n|] eqn:Ek; [| done].
        apply (save_one_preserves _ _ _ _ _ _ _ E) in Ek. by rewrite Hnone in Ek.
      * by exists pg, p, date.
Qed.

Lemma batch_loop_paths_NoDup base urls w w' results :
  batch_loop base urls w [] = Some (w', results) ->
  NoDup (map (fun o => resolve (cwd w) (outcome_path o)) (List.filter is_saved results)).
Proof.
  revert w results. induction urls as [|url urls IH]; intros w results.
  - intros [= _ <-]. constructor.
  - rewrite batch_loop_cons.
    destruct (save_one base url w) as [[w1 o]|] eqn:E; [| done].
    destruct (batch_loop base urls w1 []) as [[w2 rs]|] eqn:E2; [| done].
    intros [= <- <-].
    pose proof (save_one_frame _ _ _ _ _ E) as (_ & Hc & _).
    pose proof (IH _ _ E2) as Hnd. rewrite Hc in Hnd.
    cbn [List.filter]. destruct o as [u path t|u m]; [| exact Hnd].
    change (is_saved (Saved u path t)) with true. cbn [map outcome_path].
    constructor; [| exact Hnd].
    intros Hin. apply list_elem_of_fmap in Hin as (o' & Hkey & Ho').
    apply list_elem_of_In, filter_In in Ho' as [Ho' Hs].
    destruct o' as [u' path' t'|]; [| discriminate Hs]. cbn [outcome_path] in Hkey.
    apply list_elem_of_In in Ho'.
    destruct (batch_loop_files _ _ _ _ _ _ _ _ E2 Ho') as [Hnone _].
    destruct (save_one_file _ _ _ _ _ _ _ E) as (_ & _ & pg & p & date & _ & _ & Hfile).
    rewrite Hc, <- Hkey, Hfile in Hnone. discriminate Hnone.
Qed.

Lemma batch_loop_exists base urls w w' results d f j :
  slash_free f ->
  batch_loop base urls w [] = Some (w', results) ->
  path_exists w (candidate d f j) = true ->
  path_exists w' (candidate d f j) = true.
Proof.
  intros Hf Hloop. rewrite !path_exists_candidate by done.
  destruct (batch_loop_frame _ _ _ _ _ Hloop) as [-> _].
  intros [n Hn]. exists n. by eapply batch_loop_preserves.
Qed.

End BatchFiles.

(** X8.  In the outcomes of one run of the loop, no two saved outcomes
    have the same file: their paths are pairwise different, each names a
    place where nothing was before the run, and at the end of the run each
    holds the document of its own URL (the metadata block of that URL
    followed by its page), whatever was saved after it. *)
Theorem saved_paths_are_distinct_files base urls w w' results :
  batch_loop base urls w [] = Some (w', results) ->
  NoDup (map (fun o => resolve (cwd w) (outcome_path o)) (List.filter is_saved results))
  /\ forall u path t,
       Saved u path t ∈ results ->
       fs w !! resolve (cwd w) path = None
       /\ exists pg p date,
            net w u = Fetched pg /\ Url.urlparse u = Ok p
            /\ fs w' !! resolve (cwd w) path
               = Some (File (metadata_of (title_of pg (filename_of (path_parts_of p)))
                               u (Url.netloc p) (description_of pg) date
                             +++ page_markdown pg)).
Proof.
  intros Hloop. split; [by eapply batch_loop_paths_NoDup |].
  intros u path t Hin. by eapply batch_loop_files.
Qed.

(** X9.  Numbers only go up: when a URL is saved under a directory and a
    stem, and later (after any further URLs) another URL with the same
    directory and stem is saved, the second file carries a larger number
    than the first.  Saving the same URL again never reuses a name. *)
Theorem later_save_gets_larger_number base u u' urls d f w w1 w2 w3 p1 t1 p2 t2 rs :
  derive_path base u = Ok (d, f) ->
  derive_path base u' = Ok (d, f) ->
  save_one base u w = Some (w1, Saved u p1 t1) ->
  batch_loop base urls w1 [] = Some (w2, rs) ->
  save_one base u' w2 = Some (w3, Saved u' p2 t2) ->
  exists k1 k2, p1 = candidate d f k1 /\ p2 = candidate d f k2 /\ k1 < k2.
Proof.
  intros Hd Hd' H1 Hloop H2.
  destruct (derive_path_Ok _ _ _ _ Hd) as (p & _ & _ & _ & Hf).
  destruct (save_one_candidates _ _ _ _ _ _ _ _ _ Hd H1) as (k1 & -> & N1 & A1 & X1).
  destruct (save_one_candidates _ _ _ _ _ _ _ _ _ Hd' H2) as (k2 & -> & N2 & A2 & X2).
  exists k1, k2. split_and!; [done | done |].
  destruct (decide (k1 < k2)) as [|Hge]; [done |]. exfalso.
  assert (Hex : path_exists w1 (candidate d f k2) = true).
  { rewrite X1. destruct (Nat.eqb_spec k2 k1) as [->|Hne].
    - apply orb_true_r.
    - rewrite A1; [done | lia]. }
  apply (batch_loop_exists _ _ _ _ _ _ _ _ Hf Hloop) in Hex. by rewrite Hex in N2.
Qed.

(** ** Where a document goes *)

Section DomainFacts.

Implicit Types (s : string) (c : ascii).

Lemma split_netloc_fst s : slash_free (Url.split_netloc s).1.
Proof.
  unfold slash_free. induction s as [|c s IH]; [done |]. cbn [Url.split_netloc].
  destruct (Ascii.eqb c "/") eqn:E; [done |]. cbn [orb].
  destruct (Ascii.eqb c "?" || Ascii.eqb c "#"); [done |].
  destruct (Url.split_netloc s) as [n r]. cbn [fst Url.all_chars] in *.
  unfold not_slash at 1. by rewrite E, IH.
Qed.

Lemma urlparse_netloc url p :
  Url.urlparse url = Ok p -> slash_free (Url.netloc p).
Proof.
  unfold Url.urlparse. intros H.
  repeat case_match; simplify_eq; cbn [Url.netloc]; try reflexivity.
  all: match goal with
  | E : Url.split_netloc ?r = (?n, _) |- slash_free ?n =>
      pose proof (split_netloc_fst r) as Hn; by rewrite E in Hn
  end.
Qed.

Lemma replace_colon_chars f s :
  f "_"%char = true -> Url.all_chars f s = true ->
  Url.all_chars f (replace_char ":" "_" s) = true.
Proof.
  intros Hu. induction s as [|c s IH]; [done |]. cbn [replace_char Url.all_chars].
  intros [Hc Hs]%andb_true_iff.
  destruct (Ascii.eqb c ":"); cbn [app Url.all_chars]; rewrite IH by done.
  - by rewrite Hu.
  - by rewrite Hc.
Qed.

Lemma replace_colon_no_colon s : contains ":" (replace_char ":" "_" s) = false.
Proof.
  induction s as [|c s IH]; [done |]. cbn [replace_char].
  destruct (Ascii.eqb c ":") eqn:E; cbn [app contains startswith].
  - by rewrite IH.
  - by rewrite (Ascii.eqb_sym ":" c), E, IH.
Qed.

Lemma slash_free_no_slash s : slash_free s -> contains "/" s = false.
Proof.
  unfold slash_free. induction s as [|c s IH]; [done |].
  cbn [Url.all_chars contains startswith]. intros [Hc Hs]%andb_true_iff.
  unfold not_slash in Hc. apply negb_true_iff in Hc.
  by rewrite (Ascii.eqb_sym "/" c), Hc, IH.
Qed.

End DomainFacts.

(** X10.  The directory of a domain is one directory name: for every URL
    that parses it contains neither a slash nor a colon. *)
Theorem domain_dir_is_one_name url p :
  Url.urlparse url = Ok p ->
  contains "/" (domain_dir_of p) = false
  /\ contains ":" (domain_dir_of p) = false
  /\ (Url.netloc p <> "" -> domain_dir_of p <> "").
Proof.
  intros Hp. unfold domain_dir_of. split_and!.
  - apply slash_free_no_slash, replace_colon_chars; [done |].
    by apply urlparse_netloc in Hp.
  - apply replace_colon_no_colon.
  - destruct (Url.netloc p) as [|c s]; [done |]. intros _. cbn [replace_char].
    by destruct (Ascii.eqb c ":").
Qed.

Lemma domain_dir_is_one_name_witness :
  exists p,
    Url.urlparse "https://user@example.com:8080/a/b?q=1#top" = Ok p
    /\ domain_dir_of p = "user@example.com_8080"
    /\ contains "/" (domain_dir_of p) = false
    /\ contains ":" (domain_dir_of p) = false.
Proof.
  set (p := {| Url.scheme := "https"; Url.netloc := "user@example.com:8080";
               Url.path := "/a/b" |}).
  destruct (domain_dir_is_one_name "https://user@example.com:8080/a/b?q=1#top" p
              eq_refl) as (H1 & H2 & _).
  exists p. split_and!; [reflexivity | reflexivity | exact H1 | exact H2].
Defined.

Lemma filename_of_truthy parts : truthy (filename_of parts) = true.
Proof.
  unfold filename_of. by destruct (truthy (remove_all ".php" _)) eqn:E.
Qed.

(** X11.  Whatever the URL, the stem is not empty and has no slash in it,
    so every name tried for the document ([stem.md], [stem_1.md], ...) is a
    file directly in the directory made for the URL, never in a directory
    below or above it. *)
Theorem document_is_a_child_of_its_directory (p : Url.parsed) base cwd k :
  filename_of (path_parts_of p) <> ""
  /\ contains "/" (filename_of (path_parts_of p)) = false
  /\ resolve cwd (candidate (file_dir_of base p) (filename_of (path_parts_of p)) k)
     = resolve cwd (file_dir_of base p)
       ++ [candidate_name (filename_of (path_parts_of p)) k]
  /\ endswith ".md" (candidate_name (filename_of (path_parts_of p)) k) = true.
Proof.
  pose proof (filename_of_slash_free p) as Hf. split_and!.
  - apply truthy_nonempty, filename_of_truthy.
  - by apply slash_free_no_slash.
  - by apply resolve_candidate.
  - generalize (filename_of (path_parts_of p)). intros f.
    assert (Hend : forall a, endswith ".md" (a +++ ".md") = true).
    { induction a as [|c a IH]; [done |]. cbn [app endswith]. rewrite IH.
      apply orb_true_r. }
    destruct k; cbn [candidate_name]; [apply Hend |].
    rewrite <- !append_assoc. apply Hend.
Qed.

Section LocationFacts.

Implicit Types (cwd names : list string) (d base : string).

Lemma resolve_join_list cwd d names :
  Forall normal_name names -> resolve cwd (join d names) = resolve cwd d ++ names.
Proof.
  intros H. revert d. induction H as [|n ns Hn _ IH]; intros d.
  - by rewrite app_nil_r.
  - change (join d (n :: ns)) with (join (join d [n]) ns).
    rewrite IH, resolve_join by done. by rewrite <- app_assoc.
Qed.

Lemma elem_of_removelast {A} (x : A) (l : list A) : x ∈ removelast l -> x ∈ l.
Proof.
  induction l as [|y l IH]; [done |]. destruct l as [|z l]; cbn [removelast].
  - by intros ?%elem_of_nil.
  - intros [->|?]%elem_of_cons; [left | right; by apply IH].
Qed.

Lemma path_parts_names p x :
  x ∈ path_parts_of p -> x <> "" /\ slash_free x.
Proof.
  unfold path_parts_of.
  destruct (List.filter truthy (split "/" (Url.path p))) as [|y l] eqn:E.
  - by intros ->%list_elem_of_singleton.
  - rewrite <- E. intros [Hx Ht]%list_elem_of_In%filter_In.
    split; [by apply truthy_nonempty |].
    eapply split_elems_slash_free. by apply list_elem_of_In.
Qed.

Lemma common_prefix_app (l r : list string) : common_prefix l (l ++ r) = l.
Proof.
  induction l as [|x l IH]; [by destruct r |].
  cbn [List.app common_prefix]. by rewrite String.eqb_refl, IH.
Qed.

Lemma relpath_below cwd base path x r :
  truthy path = true ->
  resolve cwd path = resolve cwd base ++ x :: r ->
  relpath cwd path base = Ok (join x r).
Proof.
  intros Ht Hr. unfold relpath. rewrite Ht, Hr, common_prefix_app. cbn [negb].
  by rewrite Nat.sub_diag, drop_app_length.
Qed.

End LocationFacts.

(** X12.  When the authority of the URL gives a proper directory name
    (not empty, not [.] or [..]) and no directory segment of its path is
    [.] or [..], the saved document lies under the output root, in the
    directory of the domain and then the directories of the path, and the
    link the index makes to it is that relative path. *)
Theorem saved_file_location base url w w' u path t p :
  save_one base url w = Some (w', Saved u path t) ->
  Url.urlparse url = Ok p ->
  domain_dir_of p ∉ [""; "."; ".."] ->
  "." ∉ removelast (path_parts_of p) ->
  ".." ∉ removelast (path_parts_of p) ->
  exists k,
    resolve (cwd w) path
    = resolve (cwd w) base
      ++ domain_dir_of p :: removelast (path_parts_of p)
      ++ [candidate_name (filename_of (path_parts_of p)) k]
    /\ relpath (cwd w) path base
       = Ok (join (domain_dir_of p)
               (removelast (path_parts_of p)
                ++ [candidate_name (filename_of (path_parts_of p)) k])).
Proof.
  intros Hrun Hp Hdom Hdot Hdd.
  apply save_one_saved in Hrun as (pg & p' & w1 & _ & _ & Hp' & _ & Hu & _).
  rewrite Hp in Hp'. injection Hp' as <-.
  apply unique_path_spec in Hu as (k & -> & _). exists k.
  pose proof (filename_of_slash_free p) as Hf.
  assert (Hd : normal_name (domain_dir_of p)).
  { assert (Hs : slash_free (domain_dir_of p))
      by (apply replace_colon_chars; [done | by apply urlparse_netloc in Hp]).
    unfold normal_name.
    split_and!; [| done | |]; intros E; apply Hdom; rewrite E;
      [left | right; left | right; right; left]. }
  assert (Hparts : Forall normal_name (removelast (path_parts_of p))).
  { apply Forall_forall. intros x Hx.
    destruct (path_parts_names p x (elem_of_removelast _ _ Hx)) as [Hne Hs].
    split_and!; [done | done | |]; by intros ->. }
  assert (Hloc : resolve (cwd w)
            (candidate (file_dir_of base p) (filename_of (path_parts_of p)) k)
          = resolve (cwd w) base
            ++ domain_dir_of p :: removelast (path_parts_of p)
            ++ [candidate_name (filename_of (path_parts_of p)) k]).
  { rewrite resolve_candidate by done. unfold file_dir_of.
    rewrite resolve_join_list by (by constructor).
    by rewrite <- app_assoc. }
  split; [exact Hloc |].
  apply relpath_below; [| exact Hloc].
  rewrite candidate_join. apply join_single_truthy.
  apply (candidate_name_normal _ k Hf).
Qed.

(** A URL with [..] segments is filed outside the output root. *)
Example dot_segments_leave_the_root :
  exists w',
    save_one "out" "https://example.com/../../notes.html" sample_world
    = Some (w', Saved "https://example.com/../../notes.html"
                  "out/example.com/../../notes.md" (Some "Hello"))
    /\ is_Some (fs w' !! ["home"; "crawl"; "notes.md"]).
Proof.
  exists (match save_one "out" "https://example.com/../../notes.html" sample_world with
          | Some (w', _) => w'
          | None => sample_world
          end).
  split; [vm_compute; reflexivity |]. vm_compute. by eexists.
Qed.

(** ** The index of a batch *)


Lemma resolve_index_path cwd base :
  resolve cwd (index_path base) = resolve cwd base ++ ["index.md"].
Proof.
  unfold index_path. apply resolve_join.
  unfold normal_name, slash_free. split_and!; done.
Qed.

Lemma write_index_unfold base results w :
  write_index base results w
  = match build_index (cwd w) base results with
    | Raise m => (w, Raise m)
    | Ok index_content => write_file (index_path base) index_content w
    end.
Proof. reflexivity. Qed.


Lemma batch_loop_failures base urls w :
  (forall u, u ∈ urls ->
             exists m, net w u = FetchError m \/ net w u = ParseError m) ->
  exists results,
    batch_loop base urls w [] = Some (w, results)
    /\ map outcome_url results = urls
    /\ Forall (fun o => is_saved o = false) results.
Proof.
  induction urls as [|u urls IH]; intros Hall.
  - by exists [].
  - destruct (Hall u) as [m Hm]; [left |].
    destruct IH as (rs & Hloop & Hurls & Hrs).
    { intros u' Hu'. apply Hall. by right. }
    exists (Failed u m :: rs). rewrite batch_loop_cons.
    rewrite (save_one_fetch_failure base u w m Hm), Hloop.
    split_and!; [done | by rewrite <- Hurls | by constructor].
Qed.

Lemma group_results_no_saved results acc :
  Forall (fun o => is_saved o = false) results -> group_results results acc = Ok acc.
Proof.
  induction 1 as [|o rs Ho _ IH]; [done |]. cbn [group_results]. by rewrite Ho.
Qed.

Lemma count_no_saved results :
  Forall (fun o => is_saved o = false) results ->
  count is_saved results = 0 /\ count is_error results = List.length results.
Proof.
  intros H. pose proof (status_saved_or_error results) as Hsum.
  assert (H0 : count is_saved results = 0).
  { induction H as [|o rs Ho _ IH]; [done |]. rewrite count_cons, Ho. apply IH.
    pose proof (status_saved_or_error rs). lia. }
  lia.
Qed.

(** X14.  A batch in which every URL fails in the fetch or the parse, the
    empty batch included, creates no directory: the loop leaves the world as
    it was, every outcome is an error, and the index is the title line
    alone.  With a [path] that does not exist, nothing is written at all:
    [batch_save] returns success and the world is unchanged. *)
Theorem batch_of_failures_writes_nothing urls p w :
  truthy p = true ->
  (forall u, u ∈ urls ->
             exists m, net w u = FetchError m \/ net w u = ParseError m) ->
  exists results w'',
    batch_loop p urls w [] = Some (w, results)
    /\ batch_save (PList urls) (Some p) w
       = Some (w'', Ok (Success {| processed := results;
                                   base_path := p;
                                   total_saved := 0;
                                   total_errors := List.length urls |}))
    /\ build_index (cwd w) p results = Ok "# Crawled Content Index

"
    /\ (lookup_node w (resolve (cwd w) p) = None -> w'' = w).
Proof.
  intros Hp Hall.
  destruct (batch_loop_failures p urls w Hall) as (results & Hloop & Hurls & Hrs).
  destruct (count_no_saved results Hrs) as [Hs He].
  assert (Hbuild : build_index (cwd w) p results = Ok "# Crawled Content Index

").
  { unfold build_index. by rewrite group_results_no_saved. }
  exists results, (write_index p results w).1. split_and!.
  - exact Hloop.
  - unfold batch_save, resolve_base. cbn [shape_of]. rewrite Hp, Hloop, Hs, He.
    by rewrite <- Hurls, length_map.
  - exact Hbuild.
  - intros Hnone. rewrite write_index_unfold, Hbuild.
    unfold write_file. rewrite resolve_index_path.
    assert (truthy (index_path p) = true) as -> by (by apply join_single_truthy).
    cbn [negb].
    destruct (resolve (cwd w) p ++ ["index.md"]) as [|x l] eqn:E;
      [by apply app_nil in E as [_ ?] |].
    rewrite <- E, removelast_last, Hnone. reflexivity.
Qed.

(** ** What a call never touches *)

Lemma resolve_base_mono path w key n :
  fs w !! key = Some n -> fs (resolve_base path w).1 !! key = Some n.
Proof.
  intros Hk. unfold resolve_base.
  assert (Hg : fs (get_filepath w).1 !! key = Some n).
  { destruct (get_filepath_world w) as (p & ->). by apply makedirs_mono. }
  destruct path as [p|]; [| done]. by destruct (truthy p).
Qed.

Lemma write_index_other base results w key :
  last key <> Some "index.md" ->
  fs (write_index base results w).1 !! key = fs w !! key.
Proof.
  intros Hlast. rewrite write_index_unfold.
  destruct (build_index (cwd w) base results) as [content|m]; [| done].
  destruct (write_file (index_path base) content w) as [w2 [[]|m]] eqn:Ew; cbn [fst].
  - apply write_file_ok in Ew as [-> _]. cbn [fs set_fs].
    rewrite lookup_insert_ne; [done |]. intros <-.
    by rewrite resolve_index_path, last_snoc in Hlast.
  - by apply write_file_raise in Ew as [-> _].
Qed.

(** X15.  Whatever its argument and whatever happens to the URLs,
    [batch_save] changes or removes no entry the file system already had,
    except a file named [index.md]: documents saved by earlier batches stay
    as they are. *)
Theorem batch_save_keeps_existing_entries urls path w w'' ret key n :
  batch_save urls path w = Some (w'', ret) ->
  fs w !! key = Some n ->
  last key <> Some "index.md" ->
  fs w'' !! key = Some n.
Proof.
  unfold batch_save. intros Hrun Hkey Hlast.
  destruct (shape_of urls) as [l| |m]; try (by injection Hrun as <- _).
  pose proof (resolve_base_mono path w key n Hkey) as Hb.
  destruct (resolve_base path w) as [w0 [base|m]]; cbn [fst] in Hb;
    [| by injection Hrun as <- _].
  destruct (batch_loop base l w0 []) as [[w1 results]|] eqn:Hloop; [| discriminate Hrun].
  injection Hrun as <- _. rewrite write_index_other by done.
  by eapply batch_loop_preserves.
Qed.

(** X16.  No value of the mapping [map_links] returns is the empty string,
    and every key is a kept href: it begins with [http]. *)
Theorem map_links_texts_are_not_empty url w links h v :
  map_links url w = LinksSuccess links ->
  dict_get h links = Some v ->
  v <> "" /\ startswith "http" h = true.
Proof.
  unfold map_links. intros Hrun Hv.
  destruct (net w url) as [m|m|pg]; try discriminate Hrun.
  injection Hrun as <-. rewrite collect_links_fold, collect_fold_get in Hv.
  destruct (eligible h) eqn:Eh.
  - assert (Hstart : startswith "http" h = true).
    { unfold eligible in Eh. by apply andb_true_iff in Eh as [[? _]%andb_true_iff _]. }
    split; [| done].
    destruct (last_anchor_text h (page_anchors pg)) as [t|]; [| done].
    injection Hv as <-. unfold link_text.
    destruct (truthy (strip t)) eqn:Et; [by apply truthy_nonempty |].
    by destruct h.
  - done.
Qed.

(** * The further properties on the sample worlds *)

Lemma map_links_key_order_witness :
  exists links,
    map_links "https://example.com/" sample_world = LinksSuccess links
    /\ dict_keys links = ["https://example.com/about"; "https://example.com/blank"].
Proof.
  destruct (map_links_key_order "https://example.com/" sample_world sample_page eq_refl)
    as (links & Hrun & Hkeys & _).
  exists links. split; [exact Hrun |]. rewrite Hkeys. reflexivity.
Defined.

Lemma batch_save_default_path_witness :
  batch_save (PList ["https://example.com/a/b/c.html"]) None sample_world
  = batch_save (PList ["https://example.com/a/b/c.html"]) (Some "/home/crawl/output")
      (get_filepath sample_world).1.
Proof.
  assert (H : get_filepath sample_world
              = ((get_filepath sample_world).1, Ok "/home/crawl/output"))
    by (vm_compute; reflexivity).
  exact (proj1 (batch_save_default_path (PList ["https://example.com/a/b/c.html"])
                  ["https://example.com/a/b/c.html"] sample_world _ _ eq_refl H)).
Defined.

Lemma sample_cwd_normal : Forall normal_name (cwd sample_world).
Proof.
  repeat constructor; unfold slash_free; try reflexivity; discriminate.
Qed.

Lemma get_filepath_returns_directory_witness :
  path_exists (get_filepath sample_world).1 "/home/crawl/output" = true
  /\ abspath (cwd (get_filepath sample_world).1) "/home/crawl/output"
     = "/home/crawl/output".
Proof.
  assert (H : get_filepath sample_world
              = ((get_filepath sample_world).1, Ok "/home/crawl/output"))
    by (vm_compute; reflexivity).
  destruct (get_filepath_returns_directory sample_world _ _ sample_cwd_normal H)
    as (_ & Habs & Hex & _).
  split; [exact Hex | exact Habs].
Defined.

Lemma saved_paths_are_distinct_files_witness :
  exists w',
    batch_loop "out" ["https://example.com/a/c.html"; "https://example.com/a/c.php"]
      sample_world []
    = Some (w', [Saved "https://example.com/a/c.html" "out/example.com/a/c.md"
                   (Some "Hello");
                 Saved "https://example.com/a/c.php" "out/example.com/a/c_1.md"
                   (Some "Hello")])
    /\ NoDup [resolve ["home"; "crawl"] "out/example.com/a/c.md";
              resolve ["home"; "crawl"] "out/example.com/a/c_1.md"].
Proof.
  set (urls := ["https://example.com/a/c.html"; "https://example.com/a/c.php"]).
  set (w' := match batch_loop "out" urls sample_world [] with
             | Some (w', _) => w'
             | None => sample_world
             end).
  assert (Hrun : batch_loop "out" urls sample_world []
                 = Some (w', [Saved "https://example.com/a/c.html"
                                "out/example.com/a/c.md" (Some "Hello");
                              Saved "https://example.com/a/c.php"
                                "out/example.com/a/c_1.md" (Some "Hello")]))
    by (vm_compute; reflexivity).
  exists w'. split; [exact Hrun |].
  exact (proj1 (saved_paths_are_distinct_files "out" urls sample_world w' _ Hrun)).
Defined.

Lemma later_save_gets_larger_number_witness :
  exists w1 w2 w3 k1 k2,
    save_one "out" "https://example.com/a/c.html" sample_world
    = Some (w1, Saved "https://example.com/a/c.html" "out/example.com/a/c.md"
                  (Some "Hello"))
    /\ batch_loop "out" ["https://down.example/x"] w1 []
       = Some (w2, [Failed "https://down.example/x" "connection refused"])
    /\ save_one "out" "https://example.com/a/c.html" w2
       = Some (w3, Saved "https://example.com/a/c.html" "out/example.com/a/c_1.md"
                     (Some "Hello"))
    /\ "out/example.com/a/c.md" = candidate "out/example.com/a" "c" k1
    /\ "out/example.com/a/c_1.md" = candidate "out/example.com/a" "c" k2
    /\ k1 < k2.
Proof.
  set (u := "https://example.com/a/c.html").
  set (w1 := match save_one "out" u sample_world with
             | Some (w, _) => w | None => sample_world end).
  set (w2 := match batch_loop "out" ["https://down.example/x"] w1 [] with
             | Some (w, _) => w | None => w1 end).
  set (w3 := match save_one "out" u w2 with
             | Some (w, _) => w | None => w2 end).
  assert (H1 : save_one "out" u sample_world
               = Some (w1, Saved u "out/example.com/a/c.md" (Some "Hello")))
    by (vm_compute; reflexivity).
  assert (H2 : batch_loop "out" ["https://down.example/x"] w1 []
               = Some (w2, [Failed "https://down.example/x" "connection refused"]))
    by (vm_compute; reflexivity).
  assert (H3 : save_one "out" u w2
               = Some (w3, Saved u "out/example.com/a/c_1.md" (Some "Hello")))
    by (vm_compute; reflexivity).
  destruct (later_save_gets_larger_number "out" u u ["https://down.example/x"]
              "out/example.com/a" "c" sample_world w1 w2 w3 _ _ _ _ _
              eq_refl eq_refl H1 H2 H3) as (k1 & k2 & E1 & E2 & Hlt).
  exists w1, w2, w3, k1, k2. split_and!; done.
Defined.

Lemma saved_file_location_witness :
  exists w' k,
    save_one "out" "https://example.com:8080/a/b/c.html" sample_world
    = Some (w', Saved "https://example.com:8080/a/b/c.html"
                  "out/example.com_8080/a/b/c.md" (Some "Hello"))
    /\ resolve ["home"; "crawl"] "out/example.com_8080/a/b/c.md"
       = ["home"; "crawl"; "out"; "example.com_8080"; "a"; "b"; candidate_name "c" k]
    /\ relpath ["home"; "crawl"] "out/example.com_8080/a/b/c.md" "out"
       = Ok (join "example.com_8080" ["a"; "b"; candidate_name "c" k]).
Proof.
  set (u := "https://example.com:8080/a/b/c.html").
  set (p := {| Url.scheme := "https"; Url.netloc := "example.com:8080";
               Url.path := "/a/b/c.html" |}).
  set (w' := match save_one "out" u sample_world with
             | Some (w, _) => w | None => sample_world end).
  assert (H : save_one "out" u sample_world
              = Some (w', Saved u "out/example.com_8080/a/b/c.md" (Some "Hello")))
    by (vm_compute; reflexivity).
  assert (Hdom : domain_dir_of p ∉ [""; "."; ".."]).
  { change (domain_dir_of p) with "example.com_8080".
    rewrite !not_elem_of_cons. split_and!; try discriminate. apply not_elem_of_nil. }
  assert (Hdot : "." ∉ removelast (path_parts_of p)).
  { change (removelast (path_parts_of p)) with ["a"; "b"].
    rewrite !not_elem_of_cons. split_and!; try discriminate. apply not_elem_of_nil. }
  assert (Hdd : ".." ∉ removelast (path_parts_of p)).
  { change (removelast (path_parts_of p)) with ["a"; "b"].
    rewrite !not_elem_of_cons. split_and!; try discriminate. apply not_elem_of_nil. }
  destruct (saved_file_location "out" u sample_world w' u _ _ p H eq_refl
              Hdom Hdot Hdd) as (k & Hres & Hrel).
  exists w', k. split_and!; [exact H | exact Hres | exact Hrel].
Defined.


Lemma batch_of_failures_writes_nothing_witness :
  batch_save (PList ["https://down.example/x"]) (Some "out") sample_world
  = Some (sample_world,
          Ok (Success {| processed := [Failed "https://down.example/x"
                                         "connection refused"];
                         base_path := "out";
                         total_saved := 0;
                         total_errors := 1 |})).
Proof.
  destruct (batch_of_failures_writes_nothing ["https://down.example/x"] "out"
              sample_world eq_refl) as (results & w'' & Hloop & Hrun & _ & Hsame).
  - intros u ->%list_elem_of_singleton. exists "connection refused". by left.
  - rewrite (Hsame eq_refl) in Hrun. rewrite Hrun.
    vm_compute in Hloop. injection Hloop as <-. reflexivity.
Defined.

Lemma batch_save_keeps_existing_entries_witness :
  exists w1 w2 ret content,
    batch_save (PList ["https://example.com/a"]) (Some "out") w1 = Some (w2, ret)
    /\ fs w1 !! ["home"; "crawl"; "out"; "example.com"; "a.md"] = Some (File content)
    /\ fs w2 !! ["home"; "crawl"; "out"; "example.com"; "a.md"] = Some (File content)
    /\ is_Some (fs w2 !! ["home"; "crawl"; "out"; "example.com"; "a_1.md"]).
Proof.
  set (urls := PList ["https://example.com/a"]).
  set (w1 := match batch_save urls (Some "out") sample_world with
             | Some (w, _) => w | None => sample_world end).
  set (w2 := match batch_save urls (Some "out") w1 with
             | Some (w, _) => w | None => w1 end).
  set (ret := match batch_save urls (Some "out") w1 with
              | Some (_, r) => r | None => Raise "" end).
  set (content := match fs w1 !! ["home"; "crawl"; "out"; "example.com"; "a.md"] with
                  | Some (File c) => c | _ => "" end).
  assert (Hrun : batch_save urls (Some "out") w1 = Some (w2, ret))
    by (vm_compute; reflexivity).
  assert (Hkey : fs w1 !! ["home"; "crawl"; "out"; "example.com"; "a.md"]
                 = Some (File content)) by (vm_compute; reflexivity).
  exists w1, w2, ret, content. split_and!; [exact Hrun | exact Hkey | |].
  - apply (batch_save_keeps_existing_entries urls (Some "out") w1 w2 ret _ _ Hrun Hkey).
    vm_compute. discriminate.
  - vm_compute. by eexists.
Defined.

Lemma map_links_texts_are_not_empty_witness :
  map_links "https://example.com/" sample_world
  = LinksSuccess [("https://example.com/about", "About Us");
                  ("https://example.com/blank", "https://example.com/blank")]
  /\ "https://example.com/blank" <> "".
Proof.
  assert (H : map_links "https://example.com/" sample_world
              = LinksSuccess [("https://example.com/about", "About Us");
                              ("https://example.com/blank",
                               "https://example.com/blank")])
    by (vm_compute; reflexivity).
  split; [exact H |].
  exact (proj1 (map_links_texts_are_not_empty "https://example.com/" sample_world _
                  "https://example.com/blank" "https://example.com/blank"
                  H eq_refl)).
Defined.

(** ** Ordinary file names *)

Section OrdinaryNames.

Implicit Types (s pat : string) (c : ascii).

Lemma remove_all_absent c0 pat s :
  Url.all_chars (fun c => negb (Ascii.eqb c c0)) s = true ->
  remove_all (String c0 pat) s = s.
Proof.
  unfold remove_all. induction s as [|c s IH]; [done |].
  cbn [Url.all_chars]. intros [Hc Hs]%andb_true_iff. apply negb_true_iff in Hc.
  cbn [remove_from startswith]. rewrite (Ascii.eqb_sym c0 c), Hc. cbn [andb].
  by rewrite IH.
Qed.

Lemma remove_all_suffix c0 pat s :
  Url.all_chars (fun c => negb (Ascii.eqb c c0)) s = true ->
  remove_all (String c0 pat) (s +++ String c0 pat) = s.
Proof.
  unfold remove_all. induction s as [|c s IH].
  - intros _. cbn [app remove_from].
    assert (Hpre : startswith (String c0 pat) (String c0 pat) = true).
    { pose proof (prefix_refl_app (String c0 pat) "") as H.
      by rewrite append_nil_r in H. }
    rewrite Hpre. cbn [String.length Nat.pred].
    pose proof (remove_from_skip (String c0 pat) pat "") as H.
    rewrite append_nil_r in H. exact H.
  - cbn [Url.all_chars]. intros [Hc Hs]%andb_true_iff. apply negb_true_iff in Hc.
    cbn [app remove_from startswith]. rewrite (Ascii.eqb_sym c0 c), Hc. cbn [andb].
    by rewrite IH.
Qed.

End OrdinaryNames.

Lemma remove_html_keeps_php s :
  Url.all_chars (fun c => negb (Ascii.eqb c ".")) s = true ->
  remove_all ".html" (s +++ ".php") = s +++ ".php".
Proof.
  unfold remove_all. induction s as [|c s IH]; [reflexivity |].
  cbn [Url.all_chars]. intros [Hc Hs]%andb_true_iff. apply negb_true_iff in Hc.
  cbn [app remove_from startswith]. rewrite (Ascii.eqb_sym "." c), Hc. cbn [andb].
  by rewrite IH.
Qed.

(** X17.  For a last segment that is an ordinary file name, a name without
    a dot followed by nothing, by [.html] or by [.php], the stem is that
    name; it is [index] when the name is empty (a segment that is just
    [.html] or [.php]). *)
Theorem ordinary_names_keep_their_stem parts s :
  Url.all_chars (fun c => negb (Ascii.eqb c ".")) s = true ->
  filename_of (parts ++ [s +++ ".html"]) = (if truthy s then s else "index")
  /\ filename_of (parts ++ [s +++ ".php"]) = (if truthy s then s else "index")
  /\ filename_of (parts ++ [s]) = (if truthy s then s else "index").
Proof.
  intros Hs. unfold filename_of. rewrite !last_last. split_and!.
  - by rewrite (remove_all_suffix "." "html" s Hs), (remove_all_absent "." "php" s Hs).
  - by rewrite (remove_html_keeps_php s Hs), (remove_all_suffix "." "php" s Hs).
  - by rewrite (remove_all_absent "." "html" s Hs), (remove_all_absent "." "php" s Hs).
Qed.

Lemma ordinary_names_keep_their_stem_witness :
  filename_of ["docs"; "guide.html"] = "guide"
  /\ filename_of ["docs"; "guide.php"] = "guide"
  /\ filename_of ["docs"; "guide"] = "guide".
Proof.
  exact (ordinary_names_keep_their_stem ["docs"] "guide" eq_refl).
Defined.

(** ** What [batch_save] can answer *)

